(** * Magazzino: the reorder lifecycle of [app.py], embedded in Rocq

    The development follows the Flask application [src/app.py]:
    quantity apportionment and order codes at RDO confirmation
    ([confirm_rdo], [generate_order_code]), the acceptance of partial
    receipts ([accettazione_update], the acceptance block of [add]), the
    one-time supplier and producer locks ([set_fornitore_ordine],
    [set_produttore_ordine]), the shortage pass of the reorder page
    ([riordini]) and the threshold endpoints ([update_soglia] and the bulk
    save of the configuration page).

    SQLite tables are finite maps keyed by their primary key ([gmap]) or
    lists of rows when only the order of insertion matters; a nullable
    column is an [option]; Python integers are [Z]; form fields are strings
    parsed by a model of Python's [int()]. Timestamps are not represented. *)

From Stdlib Require Import ZArith List String Ascii Decimal DecimalString DecimalN Lia Bool.
From stdpp Require Import base option gmap strings list.

Local Open Scope string_scope.
Local Open Scope Z_scope.

(** ** Python strings *)

Module PyStr.

(** White space removed by [str.strip()], restricted to ASCII code points:
    tab, line feed, vertical tab, form feed, carriage return, the four
    separators 0x1c-0x1f and the space. *)
Definition py_isspace (c : ascii) : bool :=
  let n := N_of_ascii c in
  ((9 <=? n) && (n <=? 13) || (28 <=? n) && (n <=? 32))%N.

Fixpoint lstrip (s : string) : string :=
  match s with
  | EmptyString => EmptyString
  | String c s' => if py_isspace c then lstrip s' else s
  end.

Fixpoint rstrip (s : string) : string :=
  match s with
  | EmptyString => EmptyString
  | String c s' =>
      match rstrip s' with
      | EmptyString => if py_isspace c then EmptyString else String c EmptyString
      | r => String c r
      end
  end.

(** [s.strip()] *)
Definition strip (s : string) : string := lstrip (rstrip s).

(** Truth value of a string: [if s:] *)
Definition truthy (s : string) : bool :=
  match s with EmptyString => false | _ => true end.

(** [(x or '')] for a value that may be [None] *)
Definition or_empty (o : option string) : string := default EmptyString o.

(** [x or None] for a string *)
Definition or_none (s : string) : option string :=
  if truthy s then Some s else None.

Definition is_digit (c : ascii) : bool :=
  let n := N_of_ascii c in ((48 <=? n) && (n <=? 57))%N.

(** Underscores of an integer literal: Python accepts one underscore
    between two digits. [drop_underscores prev s] removes them, [prev]
    telling whether the previous character was a digit; [None] is a
    [ValueError]. *)
Fixpoint drop_underscores (prev : bool) (s : string) : option string :=
  match s with
  | EmptyString => if prev then Some EmptyString else None
  | String c s' =>
      if is_digit c then
        match drop_underscores true s' with
        | Some r => Some (String c r)
        | None => None
        end
      else if Ascii.eqb c "_" && prev then drop_underscores false s'
      else None
  end.

(** Decimal digits (at least one) to a natural number. *)
Definition digits_value (s : string) : option N :=
  match drop_underscores false s with
  | Some ds =>
      match NilEmpty.uint_of_string ds with
      | Some d => Some (N.of_uint d)
      | None => None
      end
  | None => None
  end.

(** [int(s)] for a string [s], base 10: surrounding white space, an
    optional sign, decimal digits with optional single underscores.
    [None] stands for [ValueError]. Digits outside ASCII are not
    represented. *)
Definition py_int (s : string) : option Z :=
  match strip s with
  | String "-" r => (fun n => - Z.of_N n) <$> digits_value r
  | String "+" r => Z.of_N <$> digits_value r
  | r => Z.of_N <$> digits_value r
  end.

(** [str(n)] for a natural number. *)
Definition str_of_N (n : N) : string := NilZero.string_of_uint (N.to_uint n).

Fixpoint zeros (k : nat) : string :=
  match k with
  | O => EmptyString
  | S k' => String "0" (zeros k')
  end.

(** [s.zfill(w)] on a string of digits: zeros on the left up to width [w]. *)
Definition zfill (w : nat) (s : string) : string :=
  zeros (w - String.length s) ++ s.

(** [f"{n:04d}"]: the sign, then the digits padded with zeros so that the
    whole field is at least four characters wide. *)
Definition format_04d (n : Z) : string :=
  if n <? 0 then String "-" (zfill 3 (str_of_N (Z.to_N (- n))))
  else zfill 4 (str_of_N (Z.to_N n)).

(** [s.split('/', 1)[1]]: what follows the first slash; [None] is the
    [IndexError] of a string without slash. *)
Fixpoint after_slash (s : string) : option string :=
  match s with
  | EmptyString => None
  | String c s' => if Ascii.eqb c "/" then Some s' else after_slash s'
  end.

(** [s.startswith(p)] *)
Definition startswith (s p : string) : bool := String.prefix p s.

(** [s.split(sep)] for a one-character separator: never empty. *)
Fixpoint split_on (sep : ascii) (s : string) : list string :=
  match s with
  | EmptyString => [EmptyString]
  | String c s' =>
      if Ascii.eqb c sep then EmptyString :: split_on sep s'
      else match split_on sep s' with
           | h :: t => String c h :: t
           | [] => [String c EmptyString]
           end
  end.

(** [[f.strip() for f in str(field or '').split(',') if f.strip()]] *)
Definition comma_list (field : option string) : list string :=
  filter (fun f => truthy f = true) (strip <$> split_on "," (or_empty field)).

(** [','.join(l) if l else None] *)
Definition comma_join (l : list string) : option string :=
  match l with
  | [] => None
  | _ => Some (String.concat "," l)
  end.

(** Strings made of characters of one class. *)
Fixpoint all_chars (P : ascii -> bool) (s : string) : bool :=
  match s with
  | EmptyString => true
  | String c s' => P c && all_chars P s'
  end.

(** [[0-9]*] *)
Definition all_digits : string -> bool := all_chars is_digit.

Definition not_space (c : ascii) : bool := negb (py_isspace c).
Definition not_slash (c : ascii) : bool := negb (Ascii.eqb c "/").

(** A decimal number with [k] more zeros on the left. *)
Fixpoint uint_zeros (k : nat) (d : uint) : uint :=
  match k with
  | O => d
  | S k' => D0 (uint_zeros k' d)
  end.

(** Truth value of a nullable integer column: [if row['locked']:] *)
Definition truthy_int (o : option Z) : bool :=
  match o with
  | Some n => negb (n =? 0)
  | None => false
  end.

End PyStr.

Import PyStr.

(** ** Quantity apportionment at confirmation ([confirm_rdo]) *)

Module Apportion.

(** A cleaned delivery [(data_prevista, quantita, produttore)], an element
    of [clean_pairs]. *)
Definition triple : Type := string * Z * option string.

Definition triple_date (t : triple) : string := t.1.1.
Definition triple_qty (t : triple) : Z := t.1.2.
Definition triple_pair (t : triple) : string * Z := t.1.

(** [quantita_val]: the quantity of the form, kept when it is a positive
    integer. *)
Definition quantita_val (quantita_form : string) : option Z :=
  let quantita_raw := strip quantita_form in
  if truthy quantita_raw then
    match py_int quantita_raw with
    | Some quantita_tmp => if 0 <? quantita_tmp then Some quantita_tmp else None
    | None => None
    end
  else None.

(** [total_qty]: the form's quantity, else the quantity of the RDO row,
    else 0. *)
Definition total_qty (quantita_val rdo_quantita : option Z) : Z :=
  match quantita_val with
  | Some q => q
  | None => default 0 rdo_quantita
  end.

(** [int(str(q_raw).strip())], 0 when it does not parse. *)
Definition qty_of (q_raw : string) : Z := default 0 (py_int (strip q_raw)).

(** The producer of the delivery at index [idx]: the entry of
    [prods_list] at the same index when it is not blank, else
    [form_prod or None]. *)
Definition prod_for (prods_list : list string) (form_prod : string) (idx : nat)
  : option string :=
  match strip <$> prods_list !! idx with
  | Some p => if truthy p then Some p else or_none form_prod
  | None => or_none form_prod
  end.

(** The loop over [enumerate(zip(dates_list, qtys_list))]; [idx] is the
    index in the zipped lists and [remaining] the running remainder. A
    blank date is skipped with [continue], before the [break] test. *)
Fixpoint clean_loop (prods_list : list string) (form_prod : string) (idx : nat)
    (items : list (string * string)) (remaining : Z) : list triple :=
  match items with
  | [] => []
  | (dt_raw, q_raw) :: rest =>
      let dt := strip dt_raw in
      if negb (truthy dt) then
        clean_loop prods_list form_prod (S idx) rest remaining
      else
        let qty_int := qty_of q_raw in
        let qty_int := if (idx =? 0)%nat && (qty_int <? 1) then 1 else qty_int in
        let qty_int := if remaining <? qty_int then remaining else qty_int in
        let prod_val := prod_for prods_list form_prod idx in
        if 0 <? qty_int then
          (dt, qty_int, prod_val) ::
            (if remaining - qty_int <=? 0 then []
             else clean_loop prods_list form_prod (S idx) rest (remaining - qty_int))
        else if remaining <=? 0 then []
        else clean_loop prods_list form_prod (S idx) rest remaining
  end.

(** [clean_pairs] as left by lines 7697-7747 of [confirm_rdo]. *)
Definition clean_pairs (dates_list qtys_list prods_list : list string)
    (form_prod : string) (total_qty : Z) : list triple :=
  match dates_list with
  | [] => []
  | _ => clean_loop prods_list form_prod 0 (zip dates_list qtys_list) total_qty
  end.

(** The submitted pairs as the specification sees them: the date and the
    raw quantity of each zipped pair. *)
Definition raw_pairs (dates_list qtys_list : list string) : list (string * Z) :=
  zip dates_list (qty_of <$> qtys_list).

(** The same pairs from the zipped items of the loop. *)
Definition raw_items (items : list (string * string)) : list (string * Z) :=
  (fun p : string * string => (p.1, qty_of p.2)) <$> items.

(** The pairs that carry a date, with the date trimmed. *)
Definition dated_pairs (pairs : list (string * Z)) : list (string * Z) :=
  omap (fun p : string * Z =>
          if truthy (strip p.1) then Some (strip p.1, p.2) else None) pairs.

(** The reference algorithm, written from the specification (section 4.4,
    step 1): [remaining] starts at [Q]; the pair at index 0 is raised to 1
    when its raw quantity is below 1; every quantity is lowered to
    [remaining]; a pair is accepted when the result is positive, and
    [remaining] decreases by it; once [remaining] is 0 every later pair is
    dropped. *)
Fixpoint apportion_spec (i : nat) (remaining : Z) (pairs : list (string * Z))
  : list (string * Z) :=
  match pairs with
  | [] => []
  | (date, raw_qty) :: rest =>
      if remaining =? 0 then []
      else
        let q := if (i =? 0)%nat && (raw_qty <? 1) then 1 else raw_qty in
        let clamped := Z.min q remaining in
        if 0 <? clamped then
          (date, clamped) :: apportion_spec (S i) (remaining - clamped) rest
        else apportion_spec (S i) remaining rest
  end.

Definition sum_qty (l : list Z) : Z := foldr Z.add 0 l.

End Apportion.

Import Apportion.

(** ** The tables of the reorder workflow *)

Module Db.

(** An article: [(materiale, tipo, spessore, dimensione_x, dimensione_y,
    produttore)], and its legacy projection. *)
Definition key6 : Type := string * string * string * string * string * string.
Definition key3 : Type := string * string * string.

Definition legacy_key (k : key6) : key3 :=
  let '(mat, tp, sp, _, _, _) := k in (mat, tp, sp).

(** [riordini_rdo]: a draft request. *)
Record rdo_row := {
  rdo_data : string;
  rdo_materiale : option string;
  rdo_tipo : option string;
  rdo_spessore : option string;
  rdo_dimensione_x : option string;
  rdo_dimensione_y : option string;
  rdo_quantita : option Z;
  rdo_fornitori : option string;
  rdo_fornitore_scelto : option string;
  rdo_locked_forn : option Z;
  rdo_produttori : option string;
  rdo_produttore_scelto : option string;
  rdo_locked_prod : option Z;
  rdo_data_prevista : option string
}.

(** [rdo_dates]: one delivery date of a draft. *)
Record rdo_date_row := {
  rd_rdo_id : Z;
  rd_data_prevista : option string;
  rd_quantita : option Z;
  rd_produttore : option string
}.

(** [riordini_accettazione]: an expected delivery. Both quantities are
    [INTEGER NOT NULL] columns. *)
Record acc_row := {
  acc_data : string;
  acc_materiale : option string;
  acc_tipo : option string;
  acc_spessore : option string;
  acc_dimensione_x : option string;
  acc_dimensione_y : option string;
  quantita_totale : Z;
  quantita_ricevuta : Z;
  acc_numero_ordine : option string;
  acc_fornitore : option string;
  acc_produttore : option string;
  acc_data_prevista : option string;
  ubicazione_lettera : option string;
  ubicazione_numero : option Z
}.

(** [riordini_effettuati]: an event of the history ledger. *)
Record storico_row := {
  st_tipo_evento : option string;
  st_materiale : option string;
  st_tipo : option string;
  st_spessore : option string;
  st_dimensione_x : option string;
  st_dimensione_y : option string;
  st_quantita : Z;
  st_numero_ordine : option string;
  st_fornitore : option string;
  st_produttore : option string
}.

(** [ordine_fornitori] and [ordine_produttori]: the candidates, the choice
    and the lock flag of an order code. *)
Record ordine_row := {
  elenco : option string;
  scelto : option string;
  locked : option Z
}.

Record db := {
  riordini_rdo : gmap Z rdo_row;
  rdo_dates : list rdo_date_row;
  riordini_accettazione : gmap Z acc_row;
  acc_seq : Z;
  riordini_effettuati : list storico_row;
  ordine_fornitori : gmap string ordine_row;
  ordine_produttori : gmap string ordine_row
}.

Definition set_riordini_rdo (f : gmap Z rdo_row -> gmap Z rdo_row) (d : db) : db :=
  {| riordini_rdo := f (riordini_rdo d); rdo_dates := rdo_dates d;
     riordini_accettazione := riordini_accettazione d; acc_seq := acc_seq d;
     riordini_effettuati := riordini_effettuati d;
     ordine_fornitori := ordine_fornitori d;
     ordine_produttori := ordine_produttori d |}.

Definition set_rdo_dates (f : list rdo_date_row -> list rdo_date_row) (d : db) : db :=
  {| riordini_rdo := riordini_rdo d; rdo_dates := f (rdo_dates d);
     riordini_accettazione := riordini_accettazione d; acc_seq := acc_seq d;
     riordini_effettuati := riordini_effettuati d;
     ordine_fornitori := ordine_fornitori d;
     ordine_produttori := ordine_produttori d |}.

Definition set_accettazione (f : gmap Z acc_row -> gmap Z acc_row) (d : db) : db :=
  {| riordini_rdo := riordini_rdo d; rdo_dates := rdo_dates d;
     riordini_accettazione := f (riordini_accettazione d); acc_seq := acc_seq d;
     riordini_effettuati := riordini_effettuati d;
     ordine_fornitori := ordine_fornitori d;
     ordine_produttori := ordine_produttori d |}.

Definition set_storico (f : list storico_row -> list storico_row) (d : db) : db :=
  {| riordini_rdo := riordini_rdo d; rdo_dates := rdo_dates d;
     riordini_accettazione := riordini_accettazione d; acc_seq := acc_seq d;
     riordini_effettuati := f (riordini_effettuati d);
     ordine_fornitori := ordine_fornitori d;
     ordine_produttori := ordine_produttori d |}.

Definition set_ordine_fornitori
    (f : gmap string ordine_row -> gmap string ordine_row) (d : db) : db :=
  {| riordini_rdo := riordini_rdo d; rdo_dates := rdo_dates d;
     riordini_accettazione := riordini_accettazione d; acc_seq := acc_seq d;
     riordini_effettuati := riordini_effettuati d;
     ordine_fornitori := f (ordine_fornitori d);
     ordine_produttori := ordine_produttori d |}.

Definition set_ordine_produttori
    (f : gmap string ordine_row -> gmap string ordine_row) (d : db) : db :=
  {| riordini_rdo := riordini_rdo d; rdo_dates := rdo_dates d;
     riordini_accettazione := riordini_accettazione d; acc_seq := acc_seq d;
     riordini_effettuati := riordini_effettuati d;
     ordine_fornitori := ordine_fornitori d;
     ordine_produttori := f (ordine_produttori d) |}.

(** [INSERT INTO riordini_accettazione]: the row gets the next value of
    the [AUTOINCREMENT] sequence. *)
Definition insert_accettazione (r : acc_row) (d : db) : db :=
  {| riordini_rdo := riordini_rdo d; rdo_dates := rdo_dates d;
     riordini_accettazione := <[acc_seq d + 1 := r]> (riordini_accettazione d);
     acc_seq := acc_seq d + 1;
     riordini_effettuati := riordini_effettuati d;
     ordine_fornitori := ordine_fornitori d;
     ordine_produttori := ordine_produttori d |}.

End Db.

Import Db.

(** ** Order codes ([generate_order_code]) *)

Module OrderCode.

(** [f"TM{year}/"] *)
Definition order_prefix (year : N) : string :=
  "TM" ++ str_of_N year ++ "/".

(** The rows selected by [generate_order_code]: the order codes of the
    ledger that are neither [NULL] nor empty. *)
Definition selected_codes (storico : list storico_row) : list string :=
  omap (fun r => match st_numero_ordine r with
                 | Some code => if truthy code then Some code else None
                 | None => None
                 end) storico.

(** The sequence number of a code of the current year: the integer after
    the first slash of the trimmed code; [None] when the code has another
    format or when its suffix is not an integer. *)
Definition prog_part (year : N) (code : string) : option Z :=
  let code := strip code in
  if startswith code (order_prefix year) then
    match after_slash code with
    | Some part => py_int part
    | None => None
    end
  else None.

(** One turn of the loop over the selected rows. *)
Definition max_prog_step (year : N) (max_prog : Z) (code : string) : Z :=
  if truthy code then
    match prog_part year code with
    | Some p => if max_prog <? p then p else max_prog
    | None => max_prog
    end
  else max_prog.

(** The sequence numbers of the ledger for [year]. *)
Definition seq_numbers (year : N) (storico : list storico_row) : list Z :=
  omap (prog_part year) (selected_codes storico).

(** [f"TM{year}/{seq:04d}"] *)
Definition order_code (year : N) (seq : Z) : string :=
  order_prefix year ++ format_04d seq.

Definition max_prog (year : N) (storico : list storico_row) : Z :=
  foldl (max_prog_step year) 0 (selected_codes storico).

(** [generate_order_code(conn)], [year] being the current year. *)
Definition generate_order_code (year : N) (storico : list storico_row) : string :=
  let next_prog := max_prog year storico + 1 in
  order_prefix year ++ format_04d next_prog.


End OrderCode.

Import OrderCode.

(** ** Confirmation of a draft request ([confirm_rdo]) *)

Module Confirm.

(** The fields of the confirmation form. *)
Record confirm_form := {
  f_quantita : string;
  f_fornitore_scelto : option string;
  f_produttore_scelto : option string;
  f_dates : list string;
  f_qtys : list string;
  f_prods : list string
}.

Inductive outcome : Type :=
| RdoNotFound
| Incomplete
| Confirmed (numero_ordine : string) (acc_rows_inserted : nat).

(** [value or None] for a value that may already be [None]. *)
Definition opt_or_none (o : option string) : option string :=
  match o with
  | Some s => or_none s
  | None => None
  end.

(** The precondition of the confirmation: a quantity (from the form or
    already in the row), a supplier and at least one date that is not
    blank. *)
Definition form_complete (form : confirm_form) (rdo : rdo_row) : bool :=
  let quantita_val := quantita_val (f_quantita form) in
  let form_forn := strip (or_empty (f_fornitore_scelto form)) in
  let valid_dates := filter (fun dt => truthy dt = true) (strip <$> f_dates form) in
  let existing_qty := rdo_quantita rdo in
  negb ((match quantita_val, existing_qty with
         | None, None => true
         | None, Some q => q =? 0
         | Some _, _ => false
         end)
        || negb (truthy form_forn)
        || match valid_dates with [] => true | _ => false end).

(** The deliveries kept for the draft: [clean_pairs] of the form. *)
Definition form_clean_pairs (form : confirm_form) (rdo : rdo_row) : list triple :=
  let form_prod := strip (or_empty (f_produttore_scelto form)) in
  clean_pairs (f_dates form) (f_qtys form) (f_prods form) form_prod
    (total_qty (quantita_val (f_quantita form)) (rdo_quantita rdo)).

(** The [UPDATE riordini_rdo] that precedes the confirmation. *)
Definition updated_rdo (form : confirm_form) (rdo : rdo_row) : rdo_row :=
  let quantita_val := quantita_val (f_quantita form) in
  let form_forn := strip (or_empty (f_fornitore_scelto form)) in
  let form_prod := strip (or_empty (f_produttore_scelto form)) in
  let clean := form_clean_pairs form rdo in
  {| rdo_data := rdo_data rdo;
     rdo_materiale := rdo_materiale rdo;
     rdo_tipo := rdo_tipo rdo;
     rdo_spessore := rdo_spessore rdo;
     rdo_dimensione_x := rdo_dimensione_x rdo;
     rdo_dimensione_y := rdo_dimensione_y rdo;
     rdo_quantita := match quantita_val with
                     | Some q => Some q
                     | None => rdo_quantita rdo
                     end;
     rdo_fornitori := rdo_fornitori rdo;
     rdo_fornitore_scelto := or_none form_forn;
     rdo_locked_forn := Some 1;
     rdo_produttori := rdo_produttori rdo;
     rdo_produttore_scelto :=
       if truthy form_prod then or_none form_prod else rdo_produttore_scelto rdo;
     rdo_locked_prod := if truthy form_prod then Some 1 else rdo_locked_prod rdo;
     rdo_data_prevista := match clean with
                          | [] => rdo_data_prevista rdo
                          | [t] => Some (triple_date t)
                          | _ => None
                          end |}.

Definition date_row (rdo_id : Z) (t : triple) : rdo_date_row :=
  {| rd_rdo_id := rdo_id; rd_data_prevista := Some (triple_date t);
     rd_quantita := Some (triple_qty t); rd_produttore := t.2 |}.

(** [DELETE FROM rdo_dates WHERE rdo_id=?] *)
Definition delete_dates (rdo_id : Z) (l : list rdo_date_row) : list rdo_date_row :=
  filter (fun r => rd_rdo_id r <> rdo_id) l.

(** [SELECT ... FROM rdo_dates WHERE rdo_id=?] *)
Definition dates_of (rdo_id : Z) (l : list rdo_date_row) : list rdo_date_row :=
  filter (fun r => rd_rdo_id r = rdo_id) l.

(** The choice recorded for the order: the chosen value of the row when it
    is not blank, else the first candidate. *)
Definition chosen (scelto : option string) (candidates : list string) : option string :=
  let s := strip (or_empty scelto) in
  if truthy s then Some s else head candidates.

Definition ordine_event (rdo : rdo_row) (quantita_totale : Z) (numero_ordine : string)
    (fornitore_scelto produttore_scelto : option string) : storico_row :=
  {| st_tipo_evento := Some "ordine";
     st_materiale := rdo_materiale rdo;
     st_tipo := rdo_tipo rdo;
     st_spessore := rdo_spessore rdo;
     st_dimensione_x := rdo_dimensione_x rdo;
     st_dimensione_y := rdo_dimensione_y rdo;
     st_quantita := quantita_totale;
     st_numero_ordine := Some numero_ordine;
     st_fornitore := fornitore_scelto;
     st_produttore := produttore_scelto |}.

Definition new_acc_row (rdo : rdo_row) (qty : Z) (numero_ordine : string)
    (fornitore produttore data_prevista : option string) : acc_row :=
  {| acc_data := rdo_data rdo;
     acc_materiale := rdo_materiale rdo;
     acc_tipo := rdo_tipo rdo;
     acc_spessore := rdo_spessore rdo;
     acc_dimensione_x := rdo_dimensione_x rdo;
     acc_dimensione_y := rdo_dimensione_y rdo;
     quantita_totale := qty;
     quantita_ricevuta := 0;
     acc_numero_ordine := Some numero_ordine;
     acc_fornitore := fornitore;
     acc_produttore := produttore;
     acc_data_prevista := data_prevista;
     ubicazione_lettera := None;
     ubicazione_numero := None |}.

(** One turn of the fan-out loop over the dates of the draft. *)
Definition fan_out_step (rdo : rdo_row) (numero_ordine : string)
    (fornitore_scelto produttore_scelto : option string)
    (st : db * nat) (drow : rdo_date_row) : db * nat :=
  let qty := default 0 (rd_quantita drow) in
  if qty <=? 0 then st
  else
    let prod_for_date :=
      let p := strip (or_empty (rd_produttore drow)) in
      if truthy p then Some p else produttore_scelto in
    (insert_accettazione
       (new_acc_row rdo qty numero_ordine fornitore_scelto prod_for_date
                    (rd_data_prevista drow)) st.1,
     S st.2).

(** The second part of [confirm_rdo]: order code, locks, ledger event,
    acceptance rows, removal of the draft. *)
Definition commit_rdo (year : N) (rdo_id : Z) (rdo : rdo_row) (d : db) : db * outcome :=
  let forn_list := comma_list (rdo_fornitori rdo) in
  let prod_list := comma_list (rdo_produttori rdo) in
  let fornitore_scelto := chosen (rdo_fornitore_scelto rdo) forn_list in
  let produttore_scelto := chosen (rdo_produttore_scelto rdo) prod_list in
  let quantita_totale := default 0 (rdo_quantita rdo) in
  let numero_ordine := generate_order_code year (riordini_effettuati d) in
  let d := set_ordine_fornitori
             (insert numero_ordine
                {| elenco := comma_join forn_list;
                   scelto := opt_or_none fornitore_scelto;
                   locked := Some 1 |}) d in
  let d := set_ordine_produttori
             (insert numero_ordine
                {| elenco := comma_join prod_list;
                   scelto := opt_or_none produttore_scelto;
                   locked := Some 1 |}) d in
  let d := set_storico
             (fun l => (l ++ [ordine_event rdo quantita_totale numero_ordine
                                           fornitore_scelto produttore_scelto])%list) d in
  let dates := dates_of rdo_id (rdo_dates d) in
  let '(d, acc_rows_inserted) :=
    match dates with
    | [] =>
        (insert_accettazione
           (new_acc_row rdo quantita_totale numero_ordine fornitore_scelto
                        produttore_scelto (rdo_data_prevista rdo)) d, 1%nat)
    | _ =>
        foldl (fan_out_step rdo numero_ordine fornitore_scelto produttore_scelto)
              (d, 0%nat) dates
    end in
  let d := set_rdo_dates (delete_dates rdo_id) d in
  let d := set_riordini_rdo (delete rdo_id) d in
  (d, Confirmed numero_ordine acc_rows_inserted).

(** [confirm_rdo(rdo_id)] for a user allowed on the reorder page; [year]
    is the current year. *)
Definition confirm_rdo (year : N) (rdo_id : Z) (form : confirm_form) (d : db)
  : db * outcome :=
  match riordini_rdo d !! rdo_id with
  | None => (d, RdoNotFound)
  | Some rdo =>
      if form_complete form rdo then
        let clean := form_clean_pairs form rdo in
        let rdo' := updated_rdo form rdo in
        let d := set_riordini_rdo (insert rdo_id rdo') d in
        let d := set_rdo_dates
                   (fun l => (delete_dates rdo_id l ++ (date_row rdo_id <$> clean))%list) d in
        commit_rdo year rdo_id rdo' d
      else (d, Incomplete)
  end.

(** Confirmations issued one after the other. *)
Fixpoint confirm_all (year : N) (requests : list (Z * confirm_form)) (d : db)
  : db * list outcome :=
  match requests with
  | [] => (d, [])
  | (rdo_id, form) :: rest =>
      let r := confirm_rdo year rdo_id form d in
      let rs := confirm_all year rest r.1 in
      (rs.1, r.2 :: rs.2)
  end.

(** The order codes of the confirmations that went through. *)
Definition issued_codes (outcomes : list outcome) : list string :=
  omap (fun o => match o with
                 | Confirmed numero_ordine _ => Some numero_ordine
                 | _ => None
                 end) outcomes.

(** A ledger with a legacy code and a code of the year before, and two
    drafts waiting for confirmation. *)
Definition legacy_event (code : string) : storico_row :=
  {| st_tipo_evento := Some "ordine"; st_materiale := Some "Marble";
     st_tipo := None; st_spessore := None;
     st_dimensione_x := None; st_dimensione_y := None;
     st_quantita := 4; st_numero_ordine := Some code;
     st_fornitore := None; st_produttore := None |}.

Definition sample_rdo (quantita : Z) : rdo_row :=
  {| rdo_data := "2025-03-01 09:00:00"; rdo_materiale := Some "Marble";
     rdo_tipo := Some "Polished"; rdo_spessore := Some "20mm";
     rdo_dimensione_x := Some "300"; rdo_dimensione_y := Some "150";
     rdo_quantita := Some quantita; rdo_fornitori := Some "Alfa, Beta";
     rdo_fornitore_scelto := None; rdo_locked_forn := Some 0;
     rdo_produttori := Some "Acme"; rdo_produttore_scelto := None;
     rdo_locked_prod := Some 0; rdo_data_prevista := None |}.

Definition sample_db : db :=
  {| riordini_rdo := {[ 1 := sample_rdo 20; 2 := sample_rdo 8 ]};
     rdo_dates := [];
     riordini_accettazione := ∅;
     acc_seq := 0;
     riordini_effettuati := [legacy_event "ORD-000123"; legacy_event "TM2024/0007"];
     ordine_fornitori := ∅;
     ordine_produttori := ∅ |}.

Definition sample_form (dates qtys : list string) : confirm_form :=
  {| f_quantita := ""; f_fornitore_scelto := Some "Alfa";
     f_produttore_scelto := None; f_dates := dates; f_qtys := qtys;
     f_prods := [] |}.

Definition sample_requests : list (Z * confirm_form) :=
  [(1, sample_form ["2025-06-01"; "2025-06-15"] ["5"; "30"]);
   (7, sample_form ["2025-06-01"] ["1"]);
   (2, sample_form ["2025-07-01"] ["8"])].

End Confirm.

Import Confirm.

(** ** Acceptance of deliveries ([accettazione_update] and [add]) *)

Module Acceptance.

Inductive refusal : Type :=
| NotFound            (* Riga di accettazione non trovata *)
| SupplierNotLocked   (* Seleziona e conferma un fornitore ... *)
| NonPositive         (* La quantita' da accettare deve essere maggiore di zero *)
| OverResidual.       (* ... non puo' superare la quantita' residua *)

(** The answer of [accettazione_update]: back to the reorder page with a
    message, or on to [/add] with the quantity to receive. *)
Inductive response : Type :=
| Refused (why : refusal)
| RedirectAdd (acc_id : Z) (q_parziale : Z).

(** [x in (None, '', 'None')] *)
Definition blank_field (o : option string) : bool :=
  match o with
  | None => true
  | Some s => String.eqb s "" || String.eqb s "None"
  end.

(** [s or '0'] *)
Definition or_zero (o : option string) : string :=
  match o with
  | Some s => if truthy s then s else "0"
  | None => "0"
  end.

(** The quantity posted to [accettazione_update]: the field [quantita],
    else [quantita_parziale], else 0; 0 when it is no integer. *)
Definition q_parziale_of (quantita quantita_parziale : option string) : Z :=
  let qty_raw :=
    if blank_field quantita then Some (or_zero quantita_parziale) else quantita in
  default 0 (py_int (or_zero qty_raw)).

(** The supplier of an order code is locked: [ordine_fornitori] has a row
    for the code, with a lock flag and a chosen supplier that is not
    blank. *)
Definition supplier_locked (d : db) (numero_ord : string) : bool :=
  match ordine_fornitori d !! numero_ord with
  | Some frn_row =>
      truthy_int (locked frn_row) && truthy (strip (or_empty (scelto frn_row)))
  | None => false
  end.

(** [residuo]: what is left to receive, never below 0. *)
Definition residuo (row : acc_row) : Z :=
  let r := quantita_totale row - quantita_ricevuta row in
  if r <? 0 then 0 else r.

(** [accettazione_update(acc_id)]: the checks that precede the redirect
    to [/add]. The supplier is looked up only when the row carries an
    order code. Nothing is written. *)
Definition accettazione_update (d : db) (acc_id : Z)
    (quantita quantita_parziale : option string) : response :=
  let q_parziale := q_parziale_of quantita quantita_parziale in
  match riordini_accettazione d !! acc_id with
  | None => Refused NotFound
  | Some row =>
      let unlocked :=
        match acc_numero_ordine row with
        | Some numero_ord => truthy numero_ord && negb (supplier_locked d numero_ord)
        | None => false
        end in
      if unlocked then Refused SupplierNotLocked
      else if q_parziale <=? 0 then Refused NonPositive
      else if residuo row <? q_parziale then Refused OverResidual
      else RedirectAdd acc_id q_parziale
  end.




Definition accettazione_event (row : acc_row) (accepted_qty : Z)
    (fornitore produttore : option string) : storico_row :=
  {| st_tipo_evento := Some "accettazione";
     st_materiale := acc_materiale row;
     st_tipo := acc_tipo row;
     st_spessore := acc_spessore row;
     st_dimensione_x := acc_dimensione_x row;
     st_dimensione_y := acc_dimensione_y row;
     st_quantita := accepted_qty;
     st_numero_ordine := acc_numero_ordine row;
     st_fornitore := fornitore;
     st_produttore := produttore |}.

(** The row after the [UPDATE]s of a receipt. *)
Definition received_row (row : acc_row) (q_totale q_ricevuta : Z)
    (fornitore produttore : option string) (lettera : string) (numero : Z) : acc_row :=
  {| acc_data := acc_data row;
     acc_materiale := acc_materiale row;
     acc_tipo := acc_tipo row;
     acc_spessore := acc_spessore row;
     acc_dimensione_x := acc_dimensione_x row;
     acc_dimensione_y := acc_dimensione_y row;
     quantita_totale := q_totale;
     quantita_ricevuta := q_ricevuta;
     acc_numero_ordine := acc_numero_ordine row;
     acc_fornitore := fornitore;
     acc_produttore := produttore;
     acc_data_prevista := acc_data_prevista row;
     ubicazione_lettera := match ubicazione_lettera row with
                           | Some l => Some l
                           | None => Some lettera
                           end;
     ubicazione_numero := match ubicazione_numero row with
                          | Some n => Some n
                          | None => Some numero
                          end |}.

Definition with_total (row : acc_row) (q_totale : Z) : acc_row :=
  {| acc_data := acc_data row;
     acc_materiale := acc_materiale row;
     acc_tipo := acc_tipo row;
     acc_spessore := acc_spessore row;
     acc_dimensione_x := acc_dimensione_x row;
     acc_dimensione_y := acc_dimensione_y row;
     quantita_totale := q_totale;
     quantita_ricevuta := quantita_ricevuta row;
     acc_numero_ordine := acc_numero_ordine row;
     acc_fornitore := acc_fornitore row;
     acc_produttore := acc_produttore row;
     acc_data_prevista := acc_data_prevista row;
     ubicazione_lettera := ubicazione_lettera row;
     ubicazione_numero := ubicazione_numero row |}.

(** The acceptance block of [add] (lines 4313-4392) for the row
    [acc_id_int]: the total is replaced when the form gives one; a
    positive quantity is added to the received quantity and logged in the
    ledger; the row is deleted when the received quantity has reached the
    total. *)
Definition add_acceptance (d : db) (acc_id_int : option Z) (new_total : option Z)
    (accepted_qty : Z) (fornitore produttore lettera : string) (numero : Z) : db :=
  match acc_id_int with
  | None => d
  | Some acc_id =>
      match riordini_accettazione d !! acc_id with
      | None => d
      | Some row =>
          let q_totale := default (quantita_totale row) new_total in
          let d := match new_total with
                   | Some _ => set_accettazione (insert acc_id (with_total row q_totale)) d
                   | None => d
                   end in
          let q_ricevuta :=
            if 0 <? accepted_qty then quantita_ricevuta row + accepted_qty
            else quantita_ricevuta row in
          let d :=
            if 0 <? accepted_qty then
              let new_fornitore_val :=
                if truthy fornitore then Some fornitore
                else opt_or_none (acc_fornitore row) in
              let new_produttore_val :=
                if truthy produttore then Some produttore
                else opt_or_none (acc_produttore row) in
              let d := set_accettazione
                         (insert acc_id
                            (received_row row q_totale q_ricevuta new_fornitore_val
                                          new_produttore_val lettera numero)) d in
              set_storico
                (fun l => (l ++ [accettazione_event row accepted_qty new_fornitore_val
                                                    new_produttore_val])%list) d
            else d in
          if (0 <? q_totale) && (q_totale <=? q_ricevuta)
          then set_accettazione (delete acc_id) d
          else d
      end
  end.


(** What the operator types on the [/add] page besides the quantity. *)
Record delivery := {
  dl_fornitore : string;
  dl_produttore : string;
  dl_lettera : string;
  dl_numero : Z
}.

(** [receive(acc_id, quantity)]: the checks of [accettazione_update],
    then the acceptance block of [add] for the quantity that passed them
    (the total is not edited on the way). *)
Definition receive (d : db) (acc_id : Z) (quantita : string) (dl : delivery)
  : db * response :=
  match accettazione_update d acc_id (Some quantita) None with
  | RedirectAdd id q_parziale =>
      (add_acceptance d (Some id) None q_parziale (dl_fornitore dl)
                      (dl_produttore dl) (dl_lettera dl) (dl_numero dl),
       RedirectAdd id q_parziale)
  | Refused why => (d, Refused why)
  end.

(** Receipts one after the other. *)
Fixpoint receive_all (d : db) (ops : list (Z * string * delivery)) : db :=
  match ops with
  | [] => d
  | (acc_id, quantita, dl) :: rest => receive_all (receive d acc_id quantita dl).1 rest
  end.

(** The order of the row has a locked supplier (no order, no lock). *)
Definition order_supplier_locked (d : db) (row : acc_row) : bool :=
  match acc_numero_ordine row with
  | Some numero_ord => supplier_locked d numero_ord
  | None => false
  end.


(** A delivery entered by hand on the [/add] page ("nuovo ordine"): no
    order code, and no row in [ordine_fornitori]. *)
Definition manual_row (q_totale q_ricevuta : Z) : acc_row :=
  {| acc_data := "2025-03-01 09:00:00"; acc_materiale := Some "Marble";
     acc_tipo := Some "Polished"; acc_spessore := Some "20mm";
     acc_dimensione_x := Some "300"; acc_dimensione_y := Some "150";
     quantita_totale := q_totale; quantita_ricevuta := q_ricevuta;
     acc_numero_ordine := None; acc_fornitore := Some "Alfa";
     acc_produttore := None; acc_data_prevista := Some "2025-06-01";
     ubicazione_lettera := None; ubicazione_numero := None |}.

Definition manual_db : db :=
  {| riordini_rdo := ∅; rdo_dates := [];
     riordini_accettazione := {[ 1 := manual_row 8 0 ]};
     acc_seq := 1; riordini_effettuati := [];
     ordine_fornitori := ∅; ordine_produttori := ∅ |}.

Definition sample_delivery : delivery :=
  {| dl_fornitore := "Alfa"; dl_produttore := "Acme";
     dl_lettera := "B"; dl_numero := 12 |}.

End Acceptance.

Import Acceptance.

(** ** One-time supplier and producer locks *)

Module Locks.

Inductive lock_error : Type :=
| DatiMancanti      (* 'Dati mancanti' *)
| GiaConfermato.    (* 'Fornitore gia' confermato' / 'Produttore gia' confermato' *)

(** The JSON answer: [{'success': True}], or an error with its HTTP
    status. *)
Inductive lock_response : Type :=
| LockOk
| LockError (error : lock_error) (status : Z).

(** [row and row['locked']] *)
Definition row_locked (row : option ordine_row) : bool :=
  match row with
  | Some r => truthy_int (locked r)
  | None => false
  end.

(** [INSERT OR IGNORE ... VALUES (?, NULL, NULL, 0)] when the code has no
    row, then [UPDATE ... SET <choice>=?, locked=1 WHERE numero_ordine=?]. *)
Definition lock_row (numero_ordine val : string) (tbl : gmap string ordine_row)
  : gmap string ordine_row :=
  let tbl :=
    match tbl !! numero_ordine with
    | Some _ => tbl
    | None => <[numero_ordine := {| elenco := None; scelto := None; locked := Some 0 |}]> tbl
    end in
  alter (fun r => {| elenco := elenco r; scelto := Some val; locked := Some 1 |})
        numero_ordine tbl.

(** [WHERE numero_ordine=? AND tipo_evento='ordine'] *)
Definition is_order_event (numero_ordine : string) (ev : storico_row) : bool :=
  bool_decide (st_numero_ordine ev = Some numero_ordine)
  && bool_decide (st_tipo_evento ev = Some "ordine").

Definition with_fornitore (val : string) (ev : storico_row) : storico_row :=
  {| st_tipo_evento := st_tipo_evento ev; st_materiale := st_materiale ev;
     st_tipo := st_tipo ev; st_spessore := st_spessore ev;
     st_dimensione_x := st_dimensione_x ev; st_dimensione_y := st_dimensione_y ev;
     st_quantita := st_quantita ev; st_numero_ordine := st_numero_ordine ev;
     st_fornitore := Some val; st_produttore := st_produttore ev |}.

Definition with_produttore (val : string) (ev : storico_row) : storico_row :=
  {| st_tipo_evento := st_tipo_evento ev; st_materiale := st_materiale ev;
     st_tipo := st_tipo ev; st_spessore := st_spessore ev;
     st_dimensione_x := st_dimensione_x ev; st_dimensione_y := st_dimensione_y ev;
     st_quantita := st_quantita ev; st_numero_ordine := st_numero_ordine ev;
     st_fornitore := st_fornitore ev; st_produttore := Some val |}.

(** [set_fornitore_ordine()] on the JSON fields [numero_ordine] and
    [fornitore]. *)
Definition set_fornitore_ordine (d : db) (numero_ordine_json fornitore_json : option string)
  : db * lock_response :=
  let numero_ordine := strip (or_empty numero_ordine_json) in
  let fornitore_val := strip (or_empty fornitore_json) in
  if negb (truthy numero_ordine) || negb (truthy fornitore_val) then
    (d, LockError DatiMancanti 400)
  else if row_locked (ordine_fornitori d !! numero_ordine) then
    (d, LockError GiaConfermato 400)
  else
    let d := set_ordine_fornitori (lock_row numero_ordine fornitore_val) d in
    let d := set_storico
               (fmap (fun ev => if is_order_event numero_ordine ev
                                then with_fornitore fornitore_val ev else ev)) d in
    (d, LockOk).

(** [set_produttore_ordine()] on the JSON fields [numero_ordine] and
    [produttore]. *)
Definition set_produttore_ordine (d : db) (numero_ordine_json produttore_json : option string)
  : db * lock_response :=
  let numero_ordine := strip (or_empty numero_ordine_json) in
  let produttore_val := strip (or_empty produttore_json) in
  if negb (truthy numero_ordine) || negb (truthy produttore_val) then
    (d, LockError DatiMancanti 400)
  else if row_locked (ordine_produttori d !! numero_ordine) then
    (d, LockError GiaConfermato 400)
  else
    let d := set_ordine_produttori (lock_row numero_ordine produttore_val) d in
    let d := set_storico
               (fmap (fun ev => if is_order_event numero_ordine ev
                                then with_produttore produttore_val ev else ev)) d in
    (d, LockOk).

(** An order placed without supplier (as [conferma_ordine_combo] leaves
    it): a ledger event and an expected delivery, no lock yet. *)
Definition unlocked_db : db :=
  {| riordini_rdo := ∅; rdo_dates := [];
     riordini_accettazione := ∅; acc_seq := 0;
     riordini_effettuati := [legacy_event "TM2025/0001"];
     ordine_fornitori := ∅; ordine_produttori := ∅ |}.

End Locks.

Import Locks.

(** ** Threshold rules ([update_soglia] and the bulk save of [config]) *)

Module Thresholds.

Definition DEFAULT_REORDER_THRESHOLD : Z := 5.

(** A rule: [threshold INTEGER NOT NULL], [quantita_riordino INTEGER]. *)
Record soglia := {
  sg_threshold : Z;
  sg_quantita_riordino : option Z
}.

(** [riordino_soglie], keyed by [(materiale, tipo, spessore)], and
    [riordino_soglie_ext], keyed by the six fields of the article (the
    shape [ensure_riordino_soglie_ext_schema] maintains). *)
Record soglie := {
  riordino_soglie : gmap key3 soglia;
  riordino_soglie_ext : gmap key6 soglia
}.

(** [(request.form.get(name) or '').strip()] *)
Definition form_field (o : option string) : string := strip (or_empty o).

(** [soglia_val]: the posted threshold, the default when it is missing,
    no integer or negative. *)
Definition soglia_of (soglia_raw : option string) : Z :=
  let soglia_val :=
    match soglia_raw with
    | Some s => default DEFAULT_REORDER_THRESHOLD (py_int s)
    | None => DEFAULT_REORDER_THRESHOLD
    end in
  if soglia_val <? 0 then DEFAULT_REORDER_THRESHOLD else soglia_val.

(** The reorder quantity of a stored rule when it is positive. *)
Definition stored_qr (row : option soglia) : option Z :=
  match row with
  | Some r =>
      match sg_quantita_riordino r with
      | Some q => if 0 <? q then Some q else None
      | None => None
      end
  | None => None
  end.

(** The article addressed by a form. *)
Record article_form := {
  af_materiale : option string;
  af_tipo : option string;
  af_spessore : option string;
  af_dimensione_x : option string;
  af_dimensione_y : option string;
  af_produttore : option string
}.

Definition article_key (a : article_form) : key6 :=
  (form_field (af_materiale a), form_field (af_tipo a), form_field (af_spessore a),
   form_field (af_dimensione_x a), form_field (af_dimensione_y a),
   form_field (af_produttore a)).

(** [update_soglia()]: the threshold goes to the extended table, with the
    reorder quantity already stored for the article (extended rule first,
    legacy rule next, 1 otherwise). The legacy table is only read. *)
Definition update_soglia (t : soglie) (a : article_form) (soglia_raw : option string)
  : soglie :=
  let key := article_key a in
  let soglia_val := soglia_of soglia_raw in
  let qr_val :=
    match stored_qr (riordino_soglie_ext t !! key) with
    | Some q => Some q
    | None => stored_qr (riordino_soglie t !! legacy_key key)
    end in
  let qr_val := default 1 qr_val in
  {| riordino_soglie := riordino_soglie t;
     riordino_soglie_ext :=
       <[key := {| sg_threshold := soglia_val; sg_quantita_riordino := Some qr_val |}]>
         (riordino_soglie_ext t) |}.

(** One row of the bulk save of the configuration page (lines 9756-9788
    of [config]): both tables are written. *)
Definition config_save_row (t : soglie) (a : article_form) (th qr : string) : soglie :=
  let key := article_key a in
  let soglia_val := soglia_of (Some th) in
  let qr_val :=
    if String.eqb qr "" || String.eqb qr "None" then 1
    else match py_int qr with
         | Some q => if q <=? 0 then 1 else q
         | None => 1
         end in
  let rule := {| sg_threshold := soglia_val; sg_quantita_riordino := Some qr_val |} in
  {| riordino_soglie := <[legacy_key key := rule]> (riordino_soglie t);
     riordino_soglie_ext := <[key := rule]> (riordino_soglie_ext t) |}.

Definition marble : article_form :=
  {| af_materiale := Some "Marble"; af_tipo := Some "Polished";
     af_spessore := Some "20mm"; af_dimensione_x := Some "300";
     af_dimensione_y := Some "150"; af_produttore := Some "Acme" |}.

(** Rules saved from the configuration page: threshold 3 in both tables. *)
Definition saved_soglie : soglie :=
  config_save_row {| riordino_soglie := ∅; riordino_soglie_ext := ∅ |} marble "3" "".

End Thresholds.

Import Thresholds.

(** ** The shortage pass of the reorder page ([riordini]) *)

Module Shortage.

(** [materiali]: the columns read by the stock query. *)
Record materiale_row := {
  m_materiale : string;
  m_tipo : option string;
  m_spessore : option string;
  m_dimensione_x : option string;
  m_dimensione_y : option string;
  m_produttore : option string;
  m_quantita : Z;
  m_is_sfrido : option Z
}.

(** [articoli_catalogo] *)
Record catalogo_row := {
  c_materiale : string;
  c_tipo : option string;
  c_spessore : option string;
  c_dimensione_x : option string;
  c_dimensione_y : option string;
  c_produttore : option string
}.

(** What one pass reads. *)
Record snapshot := {
  sn_db : db;
  sn_soglie : soglie;
  sn_materiali : list materiale_row;
  sn_catalogo : list catalogo_row
}.

(** A line of the reorder list. *)
Record reorder_row := {
  rr_key : key6;
  rr_quantita_totale : Z;
  rr_riordino_qty : option Z
}.

(** SQL [TRIM]: spaces removed at both ends. *)
Fixpoint sql_ltrim (s : string) : string :=
  match s with
  | String " " s' => sql_ltrim s'
  | _ => s
  end.

Fixpoint sql_rtrim (s : string) : string :=
  match s with
  | EmptyString => EmptyString
  | String c s' =>
      match sql_rtrim s' with
      | EmptyString => if Ascii.eqb c " " then EmptyString else String c EmptyString
      | r => String c r
      end
  end.

Definition sql_trim (s : string) : string := sql_ltrim (sql_rtrim s).

(** [(col=? OR (col IS NULL AND ?=''))] with the parameters
    [(v or None, v)]. *)
Definition col_matches (col : option string) (v : string) : bool :=
  match col with
  | Some c => truthy v && String.eqb c v
  | None => String.eqb v ""
  end.

(** The [WHERE] clause of the stock query. *)
Definition stock_row (k : key6) (m : materiale_row) : bool :=
  let '(mat, tp, sp, dx, dy, prod) := k in
  String.eqb (m_materiale m) mat
  && col_matches (m_tipo m) tp
  && col_matches (m_spessore m) sp
  && col_matches (m_dimensione_x m) dx
  && col_matches (m_dimensione_y m) dy
  && String.eqb (sql_trim (or_empty (m_produttore m))) prod
  && match m_is_sfrido m with
     | Some f => negb (f =? 1)
     | None => true
     end.

(** [total_qty]: [SUM(quantita)] over the matching rows, 0 without row. *)
Definition total_qty_of (materiali : list materiale_row) (k : key6) : Z :=
  foldr Z.add 0 (m_quantita <$> filter (fun m => stock_row k m = true) materiali).

(** The key under which a rule of the extended table enters
    [threshold_map_ext]. *)
Definition ext_map_key (k : key6) : key6 :=
  let '(mat, tp, sp, dx, dy, prod) := k in (mat, tp, sp, strip dx, strip dy, strip prod).

(** [qval]: a stored reorder quantity, dropped when it is not positive. *)
Definition qval_of (r : soglia) : option Z :=
  match sg_quantita_riordino r with
  | Some q => if q <=? 0 then None else Some q
  | None => None
  end.

(** The four dictionaries loaded at the start of the pass; the rows of a
    table come in the order of [map_to_list], a later row overwriting an
    earlier one under the same key. *)
Definition threshold_map (t : soglie) : gmap key3 Z :=
  sg_threshold <$> riordino_soglie t.

Definition reorder_qty_map (t : soglie) : gmap key3 (option Z) :=
  qval_of <$> riordino_soglie t.

Definition threshold_map_ext (t : soglie) : gmap key6 Z :=
  foldl (fun m (kr : key6 * soglia) => <[ext_map_key kr.1 := sg_threshold kr.2]> m)
        ∅ (map_to_list (riordino_soglie_ext t)).

Definition reorder_qty_map_ext (t : soglie) : gmap key6 (option Z) :=
  foldl (fun m (kr : key6 * soglia) => <[ext_map_key kr.1 := qval_of kr.2]> m)
        ∅ (map_to_list (riordino_soglie_ext t)).

(** The producers under which a draft keeps its article in flight. *)
Definition rdo_producers (r : rdo_row) : list string :=
  let prod_sel := strip (or_empty (rdo_produttore_scelto r)) in
  if truthy prod_sel then [prod_sel]
  else match comma_list (rdo_produttori r) with
       | [] => [EmptyString]
       | prod_list => prod_list
       end.

(** [active_keys]: the articles of the expected deliveries and of the
    drafts. *)
Definition active_keys (d : db) : gset key6 :=
  list_to_set
    ((fun a : acc_row =>
        (or_empty (acc_materiale a), or_empty (acc_tipo a), or_empty (acc_spessore a),
         or_empty (acc_dimensione_x a), or_empty (acc_dimensione_y a),
         or_empty (acc_produttore a)))
       <$> (map_to_list (riordini_accettazione d)).*2)
  ∪ list_to_set
      (r ← (map_to_list (riordini_rdo d)).*2;
       (fun p => (or_empty (rdo_materiale r), or_empty (rdo_tipo r),
                  or_empty (rdo_spessore r), or_empty (rdo_dimensione_x r),
                  or_empty (rdo_dimensione_y r), p))
         <$> rdo_producers r).

(** [th_val]: the applicable threshold, extended rule first, legacy rule
    next, default otherwise. *)
Definition th_val_of (t : soglie) (k : key6) : Z :=
  match threshold_map_ext t !! k with
  | Some th => th
  | None => default DEFAULT_REORDER_THRESHOLD (threshold_map t !! legacy_key k)
  end.

(** [rq_manual]: the manual reorder quantity, positive or absent. *)
Definition rq_manual_of (t : soglie) (k : key6) : option Z :=
  let rq_manual_raw :=
    match reorder_qty_map_ext t !! k with
    | Some v => v
    | None => mjoin (reorder_qty_map t !! legacy_key k)
    end in
  match rq_manual_raw with
  | Some v => if v <=? 0 then None else Some v
  | None => None
  end.

(** [rq]: the quantity to order (lines 5726-5744). *)
Definition riordino_qty (total_qty th_val : Z) (rq_manual : option Z) : option Z :=
  if total_qty <=? th_val then
    match rq_manual with
    | None => Some (th_val + 1 - total_qty)
    | Some r =>
        if total_qty + r <=? th_val + 1 then Some (th_val + 1 - total_qty)
        else Some r
    end
  else rq_manual.

Definition combo_key (row : catalogo_row) : key6 :=
  (c_materiale row, or_empty (c_tipo row), or_empty (c_spessore row),
   strip (or_empty (c_dimensione_x row)), strip (or_empty (c_dimensione_y row)),
   strip (or_empty (c_produttore row))).

(** One turn of the loop over the catalog; the state is [seen_combos]
    and [reorder_rows]. *)
Definition riordini_step (sn : snapshot) (active : gset key6)
    (st : gset key6 * list reorder_row) (row : catalogo_row)
  : gset key6 * list reorder_row :=
  let k := combo_key row in
  if bool_decide (k ∈ st.1) then st
  else
    let seen := {[k]} ∪ st.1 in
    if bool_decide (k ∈ active) then (seen, st.2)
    else
      let total_qty := total_qty_of (sn_materiali sn) k in
      let th_val := th_val_of (sn_soglie sn) k in
      if th_val =? 0 then (seen, st.2)
      else
        let rq := riordino_qty total_qty th_val (rq_manual_of (sn_soglie sn) k) in
        if total_qty <=? th_val then
          (seen, (st.2 ++ [{| rr_key := k; rr_quantita_totale := total_qty;
                              rr_riordino_qty := rq |}])%list)
        else (seen, st.2).

(** [reorder_rows] at the end of the pass. *)
Definition reorder_rows (sn : snapshot) : list reorder_row :=
  (foldl (riordini_step sn (active_keys (sn_db sn))) (∅, []) (sn_catalogo sn)).2.

(** What the loop guarantees of a line it appends. *)
Definition flagged (sn : snapshot) (r : reorder_row) : Prop :=
  let k := rr_key r in
  let th_val := th_val_of (sn_soglie sn) k in
  th_val <> 0
  /\ (k ∉ active_keys (sn_db sn))
  /\ rr_quantita_totale r = total_qty_of (sn_materiali sn) k
  /\ rr_quantita_totale r <= th_val
  /\ rr_riordino_qty r
     = riordino_qty (rr_quantita_totale r) th_val (rq_manual_of (sn_soglie sn) k).

(** The suggestion of the specification (section 4.2, step 5). *)
Definition suggest_spec (stock threshold : Z) (reorder_quantity : option Z) : Z :=
  match reorder_quantity with
  | None => threshold + 1 - stock
  | Some r => if stock + r <=? threshold + 1 then threshold + 1 - stock else r
  end.

(** A warehouse with three slabs of the article and one scrap. *)
Definition slab (quantita : Z) (sfrido : option Z) : materiale_row :=
  {| m_materiale := "Marble"; m_tipo := Some "Polished"; m_spessore := Some "20mm";
     m_dimensione_x := Some "300"; m_dimensione_y := Some "150";
     m_produttore := Some "Acme "; m_quantita := quantita; m_is_sfrido := sfrido |}.

Definition marble_row : catalogo_row :=
  {| c_materiale := "Marble"; c_tipo := Some "Polished"; c_spessore := Some "20mm";
     c_dimensione_x := Some "300"; c_dimensione_y := Some "150";
     c_produttore := Some "Acme" |}.

Definition empty_db : db :=
  {| riordini_rdo := ∅; rdo_dates := []; riordini_accettazione := ∅; acc_seq := 0;
     riordini_effettuati := []; ordine_fornitori := ∅; ordine_produttori := ∅ |}.

Definition sample_snapshot (t : soglie) : snapshot :=
  {| sn_db := empty_db; sn_soglie := t;
     sn_materiali := [slab 2 None; slab 1 (Some 0); slab 4 (Some 1)];
     sn_catalogo := [marble_row; marble_row] |}.

Definition no_soglie : soglie := {| riordino_soglie := ∅; riordino_soglie_ext := ∅ |}.

End Shortage.

Import Shortage.

(** ** Editing a draft request ([update_rdo]) *)

Module Staging.










End Staging.

Import Staging.

(** ** Orders placed without draft ([conferma_ordine_combo]) *)

Module Orders.







End Orders.

Import Orders.

(** ** The producer of one delivery ([set_produttore_accettazione]) *)

Module RowProducer.






End RowProducer.

Import RowProducer.

(** ** More of the threshold registry *)

Module Registry.

(** [qr_val] of [update_quantita_riordino]: the posted quantity when it is
    a positive integer, 1 otherwise. *)
Definition quantita_of (quant_raw : option string) : Z :=
  if blank_field quant_raw then 1
  else match py_int (or_empty quant_raw) with
       | Some tmp => if 0 <? tmp then tmp else 1
       | None => 1
       end.

(** [update_quantita_riordino()]: the reorder quantity goes to the
    extended table with the threshold already stored for the article
    (extended rule first, legacy rule next, default otherwise, the default
    also replacing a negative threshold). *)
Definition update_quantita_riordino (t : soglie) (a : article_form)
    (quant_raw : option string) : soglie :=
  let key := article_key a in
  let qr_val := quantita_of quant_raw in
  let threshold_val :=
    match riordino_soglie_ext t !! key with
    | Some r => Some (sg_threshold r)
    | None => sg_threshold <$> riordino_soglie t !! legacy_key key
    end in
  let threshold_val :=
    match threshold_val with
    | Some th => if th <? 0 then DEFAULT_REORDER_THRESHOLD else th
    | None => DEFAULT_REORDER_THRESHOLD
    end in
  {| riordino_soglie := riordino_soglie t;
     riordino_soglie_ext :=
       <[key := {| sg_threshold := threshold_val; sg_quantita_riordino := Some qr_val |}]>
         (riordino_soglie_ext t) |}.


(** The keys of the extended table are in the form under which the
    shortage pass files them: dimensions and producer trimmed. *)
Definition normalised (t : soglie) : Prop :=
  forall k r, riordino_soglie_ext t !! k = Some r -> ext_map_key k = k.

(** [qty] of a stored delivery date: its quantity, 0 when [NULL]. *)
Definition date_total (dr : rdo_date_row) : Z := default 0 (rd_quantita dr).

(** Two states that differ at most in the expected deliveries. *)
Definition same_but_accettazione (d d' : db) : Prop :=
  riordini_rdo d' = riordini_rdo d
  /\ rdo_dates d' = rdo_dates d
  /\ riordini_effettuati d' = riordini_effettuati d
  /\ ordine_fornitori d' = ordine_fornitori d
  /\ ordine_produttori d' = ordine_produttori d.

(** The state on which [confirm_rdo] runs its second part. *)
Definition staged (rdo_id : Z) (form : confirm_form) (rdo : rdo_row) (d : db) : db :=
  set_rdo_dates
    (fun l => (delete_dates rdo_id l ++ (date_row rdo_id <$> form_clean_pairs form rdo))%list)
    (set_riordini_rdo (insert rdo_id (updated_rdo form rdo)) d).


(** An article the shortage pass has to list: not in flight, with a
    threshold that is not 0 and a stock that does not exceed it. *)
Definition listed (sn : snapshot) (k : key6) : Prop :=
  (k ∉ active_keys (sn_db sn))
  /\ th_val_of (sn_soglie sn) k <> 0
  /\ total_qty_of (sn_materiali sn) k <= th_val_of (sn_soglie sn) k.

(** The invariant of the loop over the catalog, [done] being the rows
    already visited. *)
Definition loop_inv (sn : snapshot) (done : list catalogo_row)
    (st : gset key6 * list reorder_row) : Prop :=
  (forall k, k ∈ st.1 <-> k ∈ combo_key <$> done)
  /\ (forall k, k ∈ rr_key <$> st.2 <-> k ∈ combo_key <$> done /\ listed sn k)
  /\ NoDup (rr_key <$> st.2).

End Registry.

Import Registry.

(** ** Creation of draft requests ([create_rdo]) *)

Module Drafts.











(** A name that the comma-separated columns store faithfully: no comma,
    no white space at either end, not empty. *)
Definition not_comma (c : ascii) : bool := negb (Ascii.eqb c ",").

Definition plain_name (s : string) : Prop :=
  all_chars not_comma s = true /\ strip s = s /\ s <> EmptyString.

End Drafts.

Import Drafts.

(** * Properties *)

(** ** Apportionment *)

Section ApportionFacts.

Variables (prods_list : list string) (form_prod : string).

Local Abbreviation loop := (clean_loop prods_list form_prod).

Lemma raw_pairs_items dates_list qtys_list :
  raw_pairs dates_list qtys_list = raw_items (zip dates_list qtys_list).
Proof.
  unfold raw_pairs, raw_items.
  revert qtys_list; induction dates_list as [|d ds IH]; intros [|q qs]; simpl; auto.
  now rewrite IH.
Qed.

(** With nothing left to apportion the loop accepts nothing. *)
Lemma clean_loop_exhausted items : forall idx remaining,
  remaining <= 0 -> loop idx items remaining = [].
Proof.
  induction items as [|[dt_raw q_raw] rest IH]; intros idx remaining Hrem; simpl; auto.
  destruct (truthy (strip dt_raw)); simpl; auto.
  set (q := if (idx =? 0)%nat && (qty_of q_raw <? 1) then 1 else qty_of q_raw).
  assert (Hq : (if remaining <? q then remaining else q) <= 0)
    by (destruct (Z.ltb_spec remaining q); lia).
  destruct (Z.ltb_spec 0 (if remaining <? q then remaining else q)); [lia|].
  destruct (Z.leb_spec remaining 0); [reflexivity | lia].
Qed.

Lemma apportion_spec_zero i pairs : apportion_spec i 0 pairs = [].
Proof. destruct pairs as [|[d q] rest]; reflexivity. Qed.

Lemma apportion_spec_negative pairs : forall i remaining,
  remaining < 0 -> apportion_spec i remaining pairs = [].
Proof.
  induction pairs as [|[d q] rest IH]; intros i remaining Hrem; simpl; auto.
  destruct (Z.eqb_spec remaining 0); [reflexivity|].
  destruct (Z.ltb_spec 0 (Z.min (if (i =? 0)%nat && (q <? 1) then 1 else q) remaining));
    [lia | auto].
Qed.

Lemma apportion_spec_exhausted i remaining pairs :
  remaining <= 0 -> apportion_spec i remaining pairs = [].
Proof.
  intros H. destruct (Z.eq_dec remaining 0) as [->|].
  - apply apportion_spec_zero.
  - apply apportion_spec_negative; lia.
Qed.

(** Only the index 0 is special in the reference algorithm. *)
Lemma apportion_spec_later pairs : forall i j remaining,
  apportion_spec (S i) remaining pairs = apportion_spec (S j) remaining pairs.
Proof.
  induction pairs as [|[d q] rest IH]; intros i j remaining; simpl; auto.
  destruct (remaining =? 0); auto.
  destruct (0 <? Z.min q remaining); [f_equal|]; apply IH.
Qed.

(** After index 0 the loop is the reference algorithm on the dated pairs. *)
Lemma clean_loop_later items : forall idx remaining,
  triple_pair <$> loop (S idx) items remaining
  = apportion_spec 1 remaining (dated_pairs (raw_items items)).
Proof.
  induction items as [|[dt_raw q_raw] rest IH]; intros idx remaining; [reflexivity|].
  destruct (Z.le_gt_cases remaining 0) as [Hle|Hgt].
  { rewrite clean_loop_exhausted, apportion_spec_exhausted by lia. reflexivity. }
  simpl. destruct (truthy (strip dt_raw)); simpl; [|apply IH].
  destruct (Z.eqb_spec remaining 0); [lia|].
  destruct (Z.ltb_spec remaining (qty_of q_raw)).
  - rewrite Z.min_r by lia.
    destruct (Z.ltb_spec 0 remaining); [|lia].
    rewrite Z.sub_diag. simpl. now rewrite apportion_spec_zero.
  - rewrite Z.min_l by lia.
    destruct (Z.ltb_spec 0 (qty_of q_raw)).
    + destruct (Z.leb_spec (remaining - qty_of q_raw) 0).
      * rewrite apportion_spec_exhausted by lia. reflexivity.
      * simpl. f_equal. rewrite IH. apply apportion_spec_later.
    + destruct (Z.leb_spec remaining 0); [lia|].
      rewrite IH. apply apportion_spec_later.
Qed.

(** When the pair at index 0 carries a date, the whole loop is the
    reference algorithm on the dated pairs. *)
Lemma clean_loop_first items remaining :
  (forall p, head items = Some p -> truthy (strip p.1) = true) ->
  triple_pair <$> loop 0 items remaining
  = apportion_spec 0 remaining (dated_pairs (raw_items items)).
Proof.
  destruct items as [|[dt_raw q_raw] rest]; intros Hfirst; [reflexivity|].
  specialize (Hfirst _ eq_refl); simpl in Hfirst.
  destruct (Z.le_gt_cases remaining 0) as [Hle|Hgt].
  { rewrite clean_loop_exhausted, apportion_spec_exhausted by lia. reflexivity. }
  simpl. rewrite Hfirst; simpl.
  destruct (Z.eqb_spec remaining 0); [lia|].
  set (q := if qty_of q_raw <? 1 then 1 else qty_of q_raw).
  assert (Hq : 1 <= q) by (subst q; destruct (Z.ltb_spec (qty_of q_raw) 1); lia).
  destruct (Z.ltb_spec remaining q).
  - rewrite Z.min_r by lia.
    destruct (Z.ltb_spec 0 remaining); [|lia].
    rewrite Z.sub_diag. simpl. now rewrite apportion_spec_zero.
  - rewrite Z.min_l by lia.
    destruct (Z.ltb_spec 0 q); [|lia].
    destruct (Z.leb_spec (remaining - q) 0).
    + rewrite apportion_spec_exhausted by lia. reflexivity.
    + simpl. f_equal. apply clean_loop_later.
Qed.

Lemma sum_qty_cons q l : sum_qty (q :: l) = q + sum_qty l.
Proof. reflexivity. Qed.

Lemma sum_qty_nil : sum_qty [] = 0.
Proof. reflexivity. Qed.

(** Accepted quantities lie between 1 and the remainder, and add up to at
    most the remainder. *)
Lemma clean_loop_bounds items : forall idx remaining,
  0 <= remaining ->
  Forall (fun q => 1 <= q <= remaining) (triple_qty <$> loop idx items remaining)
  /\ sum_qty (triple_qty <$> loop idx items remaining) <= remaining.
Proof.
  induction items as [|[dt_raw q_raw] rest IH]; intros idx remaining Hrem; simpl.
  { split; [constructor | simpl; lia]. }
  destruct (truthy (strip dt_raw)); simpl; [|apply IH; lia].
  set (q := if (idx =? 0)%nat && (qty_of q_raw <? 1) then 1 else qty_of q_raw).
  set (c := if remaining <? q then remaining else q).
  assert (Hc : c <= remaining) by (subst c; destruct (Z.ltb_spec remaining q); lia).
  destruct (Z.ltb_spec 0 c).
  - destruct (Z.leb_spec (remaining - c) 0).
    + rewrite fmap_cons, fmap_nil, sum_qty_cons, sum_qty_nil.
      change (triple_qty (strip dt_raw, c, prod_for prods_list form_prod idx)) with c.
      split; [constructor; [lia | constructor] | lia].
    + destruct (IH (S idx) (remaining - c)) as [Hall Hsum]; [lia|].
      rewrite fmap_cons, sum_qty_cons.
      change (triple_qty (strip dt_raw, c, prod_for prods_list form_prod idx)) with c.
      split; [|lia].
      constructor; [lia|].
      eapply Forall_impl; [exact Hall|]. simpl; intros; lia.
  - destruct (Z.leb_spec remaining 0).
    + rewrite fmap_nil, sum_qty_nil. split; [constructor | lia].
    + apply IH; lia.
Qed.

Lemma sum_qty_nonneg (l : list Z) :
  Forall (fun q => 1 <= q) l -> 0 <= sum_qty l.
Proof. induction 1; rewrite ?sum_qty_nil, ?sum_qty_cons; lia. Qed.

Lemma dated_raw_cons dt_raw q_raw rest :
  dated_pairs (raw_items ((dt_raw, q_raw) :: rest))
  = if truthy (strip dt_raw)
    then (strip dt_raw, qty_of q_raw) :: dated_pairs (raw_items rest)
    else dated_pairs (raw_items rest).
Proof. unfold dated_pairs, raw_items. simpl. now destruct (truthy (strip dt_raw)). Qed.

(** Something is accepted as soon as the dated pairs ask for at least one
    unit and something is left to apportion. *)
Lemma clean_loop_positive items : forall idx remaining,
  0 < remaining ->
  1 <= sum_qty ((dated_pairs (raw_items items)).*2) ->
  0 < sum_qty (triple_qty <$> loop idx items remaining).
Proof.
  induction items as [|[dt_raw q_raw] rest IH]; intros idx remaining Hrem Hsum.
  { change (1 <= 0) in Hsum. lia. }
  rewrite dated_raw_cons in Hsum. simpl.
  destruct (truthy (strip dt_raw)); simpl negb; cbv iota; [|apply IH; auto].
  rewrite fmap_cons, sum_qty_cons in Hsum. simpl snd in Hsum.
  set (q := if (idx =? 0)%nat && (qty_of q_raw <? 1) then 1 else qty_of q_raw).
  set (c := if remaining <? q then remaining else q).
  assert (Hq : qty_of q_raw <= q)
    by (subst q; destruct ((idx =? 0)%nat); simpl;
        [destruct (Z.ltb_spec (qty_of q_raw) 1)|]; lia).
  assert (Hc : c <= remaining) by (subst c; destruct (Z.ltb_spec remaining q); lia).
  assert (Hcq : c <= 0 -> q <= 0) by (subst c; destruct (Z.ltb_spec remaining q); lia).
  clearbody c q.
  destruct (Z.ltb_spec 0 c) as [Hpos|Hnpos].
  - rewrite fmap_cons, sum_qty_cons.
    change (triple_qty (strip dt_raw, c, prod_for prods_list form_prod idx)) with c.
    match goal with |- 0 < c + ?r => assert (Hrest : 0 <= r) end; [|lia].
    destruct (Z.leb_spec (remaining - c) 0); [rewrite fmap_nil, sum_qty_nil; lia|].
    apply sum_qty_nonneg.
    destruct (clean_loop_bounds rest (S idx) (remaining - c)) as [Hall _]; [lia|].
    eapply Forall_impl; [exact Hall|]. simpl; intros; lia.
  - destruct (Z.leb_spec remaining 0); [lia|].
    apply IH; auto. lia.
Qed.

End ApportionFacts.

(** C1, amended. The accepted pairs of [confirm_rdo] are those of the
    reference apportionment algorithm of the specification, run in
    submission order on the pairs that carry a date (a pair whose date is
    blank is skipped and leaves the remainder alone; accepted dates are
    trimmed), provided the pair at index 0 carries a date: the remainder
    starts at [Q], the pair at index 0 is raised to 1, every quantity is
    lowered to the remainder, a pair is accepted exactly when the result is
    positive, and nothing is accepted once the remainder is 0. For [Q = 20]
    and the pairs [("2024-06-01", 5); ("2024-06-15", 30)] the accepted
    pairs are [("2024-06-01", 5); ("2024-06-15", 15)]. *)
Theorem confirm_rdo_apportionment :
  (forall (dates_list qtys_list prods_list : list string) (form_prod : string) (Q : Z),
      (forall d, head dates_list = Some d -> truthy (strip d) = true) ->
      triple_pair <$> clean_pairs dates_list qtys_list prods_list form_prod Q
      = apportion_spec 0 Q (dated_pairs (raw_pairs dates_list qtys_list)))
  /\ triple_pair <$> clean_pairs ["2024-06-01"; "2024-06-15"] ["5"; "30"] [] "" 20
     = [("2024-06-01", 5); ("2024-06-15", 15)].
Proof.
  split; [|reflexivity].
  intros dates_list qtys_list prods_list form_prod Q Hfirst.
  unfold clean_pairs. destruct dates_list as [|d ds]; [reflexivity|].
  rewrite raw_pairs_items. apply clean_loop_first.
  intros p Hp. destruct qtys_list as [|q qs]; [discriminate|].
  injection Hp as <-. now apply Hfirst.
Qed.

Lemma confirm_rdo_apportionment_witness :
  (forall d, head ["2024-06-01"; " 2024-06-15 "; ""; "2024-07-01"] = Some d ->
             truthy (strip d) = true)
  /\ triple_pair <$> clean_pairs ["2024-06-01"; " 2024-06-15 "; ""; "2024-07-01"]
                                 ["0"; "x"; "9"; "30"] ["Acme"] "Beta" 20
     = apportion_spec 0 20
         (dated_pairs (raw_pairs ["2024-06-01"; " 2024-06-15 "; ""; "2024-07-01"]
                                 ["0"; "x"; "9"; "30"])).
Proof.
  split.
  - intros d [= <-]. reflexivity.
  - apply (proj1 confirm_rdo_apportionment). intros d [= <-]. reflexivity.
Defined.

(** C1 as stated fails when the pair at index 0 has a blank date: the
    pair is skipped although its clamped quantity is positive, and the
    next pair, at index 1, is not raised to 1. The loop accepts nothing,
    whereas the reference algorithm accepts a pair, whether it is run on
    all the submitted pairs or only on those that carry a date. *)
Lemma confirm_rdo_apportionment_blank_first :
  triple_pair <$> clean_pairs [""; "2024-06-15"] ["5"; "0"] [] "" 20 = []
  /\ apportion_spec 0 20 (raw_pairs [""; "2024-06-15"] ["5"; "0"]) = [("", 5)]
  /\ apportion_spec 0 20 (dated_pairs (raw_pairs [""; "2024-06-15"] ["5"; "0"]))
     = [("2024-06-15", 1)]
  /\ triple_pair <$> clean_pairs [""; "2024-06-15"] ["5"; "0"] [] "" 20
     <> apportion_spec 0 20 (raw_pairs [""; "2024-06-15"] ["5"; "0"]).
Proof. repeat split; try reflexivity. discriminate. Qed.

(** C2, amended. For every order total [Q >= 0] and every submitted
    lists of dates and quantities, the accepted quantities add up to at
    most [Q], each of them (the first one in particular) lies between 1 and
    [Q], and when [Q >= 1] and the raw quantities of the pairs that carry a
    date add up to at least 1, the accepted total is positive. *)
Theorem clean_pairs_conservation
    (dates_list qtys_list prods_list : list string) (form_prod : string) (Q : Z) :
  0 <= Q ->
  let accepted := triple_qty <$> clean_pairs dates_list qtys_list prods_list form_prod Q in
  sum_qty accepted <= Q
  /\ Forall (fun q => 1 <= q <= Q) accepted
  /\ (forall q, head accepted = Some q -> 1 <= q)
  /\ (1 <= Q ->
      1 <= sum_qty ((dated_pairs (raw_pairs dates_list qtys_list)).*2) ->
      0 < sum_qty accepted).
Proof.
  intros HQ accepted.
  assert (Hb : Forall (fun q => 1 <= q <= Q) accepted /\ sum_qty accepted <= Q).
  { subst accepted. unfold clean_pairs. destruct dates_list as [|d ds].
    - split; [constructor | rewrite fmap_nil, sum_qty_nil; lia].
    - now apply clean_loop_bounds. }
  destruct Hb as [Hall Hsum].
  repeat split; auto.
  - intros q Hq. destruct accepted as [|q' rest]; [discriminate|].
    injection Hq as ->. inversion Hall; subst; lia.
  - intros HQ1 Hraw. subst accepted. unfold clean_pairs.
    destruct dates_list as [|d ds].
    + change (1 <= 0) in Hraw. lia.
    + rewrite raw_pairs_items in Hraw. apply clean_loop_positive; [lia | exact Hraw].
Qed.

Lemma clean_pairs_conservation_witness :
  0 <= 20
  /\ sum_qty (triple_qty <$> clean_pairs ["2024-06-01"; "2024-06-15"] ["5"; "30"] [] "" 20)
     <= 20.
Proof.
  split; [lia|].
  apply (clean_pairs_conservation ["2024-06-01"; "2024-06-15"] ["5"; "30"] [] "" 20).
  lia.
Defined.

(** C2 as stated fails on its last part: with a blank date at index 0
    the raw quantities add up to 5 and the order total is 20, yet nothing
    is accepted. *)
Lemma clean_pairs_conservation_blank_first :
  1 <= 20
  /\ 1 <= sum_qty ((raw_pairs [""; "2024-06-15"] ["5"; "0"]).*2)
  /\ ~ 0 < sum_qty (triple_qty <$> clean_pairs [""; "2024-06-15"] ["5"; "0"] [] "" 20).
Proof. repeat split; vm_compute; discriminate. Qed.

(** ** Python strings *)

Section PyStrFacts.

Lemma append_nil (b : string) : "" ++ b = b.
Proof. reflexivity. Qed.

Lemma append_cons c (a b : string) : String c a ++ b = String c (a ++ b).
Proof. reflexivity. Qed.

Lemma append_assoc (a b c : string) : (a ++ b) ++ c = a ++ (b ++ c).
Proof.
  induction a as [|x a IH]; [reflexivity|].
  now rewrite !append_cons, IH.
Qed.

Lemma all_chars_app P (a b : string) :
  all_chars P (a ++ b) = all_chars P a && all_chars P b.
Proof.
  induction a as [|x a IH]; [reflexivity|].
  rewrite append_cons. simpl. rewrite IH. apply andb_assoc.
Qed.

Lemma all_chars_impl (P Q : ascii -> bool) s :
  (forall c, P c = true -> Q c = true) ->
  all_chars P s = true -> all_chars Q s = true.
Proof.
  intros HPQ. induction s as [|c s IH]; simpl; [reflexivity|].
  intros [Hc Hs]%andb_prop. rewrite (HPQ _ Hc). now apply IH.
Qed.

Lemma digit_not_space c : is_digit c = true -> not_space c = true.
Proof. destruct c as [[] [] [] [] [] [] [] []]; vm_compute; congruence. Qed.

Lemma digit_not_slash c : is_digit c = true -> not_slash c = true.
Proof. destruct c as [[] [] [] [] [] [] [] []]; vm_compute; congruence. Qed.

Lemma rstrip_no_space s : all_chars not_space s = true -> rstrip s = s.
Proof.
  induction s as [|c s IH]; simpl; [reflexivity|].
  intros [Hc Hs]%andb_prop. rewrite (IH Hs).
  unfold not_space in Hc. apply negb_true_iff in Hc. rewrite Hc.
  now destruct s.
Qed.

Lemma lstrip_no_space s : all_chars not_space s = true -> lstrip s = s.
Proof.
  destruct s as [|c s]; simpl; [reflexivity|].
  intros [Hc _]%andb_prop.
  unfold not_space in Hc. apply negb_true_iff in Hc. now rewrite Hc.
Qed.

Lemma strip_no_space s : all_chars not_space s = true -> strip s = s.
Proof.
  intros H. unfold strip. rewrite (rstrip_no_space _ H). now apply lstrip_no_space.
Qed.

Lemma strip_digits s : all_digits s = true -> strip s = s.
Proof.
  intros H. apply strip_no_space.
  eapply all_chars_impl; [apply digit_not_space | exact H].
Qed.

Lemma all_digits_uint d : all_digits (NilEmpty.string_of_uint d) = true.
Proof. induction d; simpl; auto. Qed.

Lemma str_of_N_uint n : str_of_N n = NilEmpty.string_of_uint (N.to_uint n).
Proof.
  unfold str_of_N, NilZero.string_of_uint.
  destruct n as [|p]; [reflexivity|]. simpl.
  pose proof (DecimalPos.Unsigned.to_uint_nonnil p) as Hp.
  now destruct (Pos.to_uint p).
Qed.

Lemma all_digits_str_of_N n : all_digits (str_of_N n) = true.
Proof. rewrite str_of_N_uint. apply all_digits_uint. Qed.

Lemma str_of_N_nonempty n : str_of_N n <> "".
Proof.
  rewrite str_of_N_uint. destruct n as [|p]; [discriminate|]. simpl.
  pose proof (DecimalPos.Unsigned.to_uint_nonnil p) as Hp.
  now destruct (Pos.to_uint p).
Qed.

Lemma all_digits_zeros k : all_digits (zeros k) = true.
Proof. induction k; simpl; auto. Qed.

Lemma all_digits_zfill w s : all_digits s = true -> all_digits (zfill w s) = true.
Proof.
  intros H. unfold zfill, all_digits. rewrite all_chars_app.
  apply andb_true_intro. split; [apply all_digits_zeros | exact H].
Qed.

Lemma zfill_nonempty w s : s <> "" -> zfill w s <> "".
Proof.
  unfold zfill. destruct (w - String.length s)%nat; [auto|].
  simpl zeros. rewrite append_cons. discriminate.
Qed.

Lemma drop_underscores_digits s : forall prev,
  all_digits s = true -> s <> "" \/ prev = true ->
  drop_underscores prev s = Some s.
Proof.
  induction s as [|c s IH]; intros prev Hd Hne; simpl.
  - destruct Hne as [Hne| ->]; [congruence | reflexivity].
  - apply andb_prop in Hd as [Hc Hs]. rewrite Hc.
    rewrite (IH true Hs) by now right. reflexivity.
Qed.

Lemma uint_of_string_zeros k d :
  NilEmpty.uint_of_string (zeros k ++ NilEmpty.string_of_uint d)
  = Some (uint_zeros k d).
Proof.
  induction k as [|k IH].
  - apply NilEmpty.usu.
  - simpl zeros. rewrite append_cons. simpl. now rewrite IH.
Qed.

Lemma of_uint_zeros k d : N.of_uint (uint_zeros k d) = N.of_uint d.
Proof. induction k; simpl; auto. Qed.

Lemma digits_value_zfill w n : digits_value (zfill w (str_of_N n)) = Some n.
Proof.
  unfold digits_value.
  rewrite drop_underscores_digits.
  - unfold zfill. rewrite str_of_N_uint, uint_of_string_zeros, of_uint_zeros.
    now rewrite DecimalN.Unsigned.of_to.
  - apply all_digits_zfill, all_digits_str_of_N.
  - left. apply zfill_nonempty, str_of_N_nonempty.
Qed.

(** A string of digits carries no sign. *)
Lemma py_int_digits s :
  all_digits s = true -> s <> "" -> py_int s = Z.of_N <$> digits_value s.
Proof.
  intros Hd Hne. unfold py_int. rewrite (strip_digits _ Hd).
  destruct s as [|c s]; [congruence|].
  apply andb_prop in Hd as [Hc _].
  destruct c as [[] [] [] [] [] [] [] []]; try reflexivity; discriminate.
Qed.

(** Reading back a formatted sequence number. *)
Lemma py_int_format_04d n : 0 <= n -> py_int (format_04d n) = Some n.
Proof.
  intros Hn. unfold format_04d.
  destruct (Z.ltb_spec n 0); [lia|].
  rewrite py_int_digits.
  - rewrite digits_value_zfill. simpl. f_equal. lia.
  - apply all_digits_zfill, all_digits_str_of_N.
  - apply zfill_nonempty, str_of_N_nonempty.
Qed.

Lemma format_04d_digits n : 0 <= n -> all_digits (format_04d n) = true.
Proof.
  intros Hn. unfold format_04d. destruct (Z.ltb_spec n 0); [lia|].
  apply all_digits_zfill, all_digits_str_of_N.
Qed.

Lemma startswith_app p x : startswith (p ++ x) p = true.
Proof.
  unfold startswith. induction p as [|c p IH].
  - now destruct x.
  - rewrite append_cons. simpl.
    destruct (ascii_dec c c); [exact IH | congruence].
Qed.

Lemma after_slash_app a x :
  all_chars not_slash a = true -> after_slash (a ++ String "/" x) = Some x.
Proof.
  induction a as [|c a IH]; [reflexivity|].
  rewrite append_cons. simpl.
  intros [Hc Ha]%andb_prop.
  unfold not_slash in Hc. apply negb_true_iff in Hc. rewrite Hc. now apply IH.
Qed.

End PyStrFacts.

(** ** Order codes *)

Section OrderCodeFacts.

Variable year : N.

Lemma order_prefix_split x :
  order_prefix year ++ x = "TM" ++ str_of_N year ++ String "/" x.
Proof. unfold order_prefix. now rewrite !append_assoc. Qed.

Lemma order_code_no_space n :
  0 <= n -> all_chars not_space (order_code year n) = true.
Proof.
  intros Hn. unfold order_code. rewrite order_prefix_split.
  rewrite !all_chars_app.
  change (String "/" (format_04d n)) with ("/" ++ format_04d n).
  rewrite all_chars_app.
  rewrite (all_chars_impl is_digit not_space (str_of_N year) digit_not_space)
    by apply all_digits_str_of_N.
  rewrite (all_chars_impl is_digit not_space (format_04d n) digit_not_space)
    by now apply format_04d_digits.
  reflexivity.
Qed.

(** The sequence number of a code issued for [year] is read back. *)
Lemma prog_part_order_code n : 0 <= n -> prog_part year (order_code year n) = Some n.
Proof.
  intros Hn. unfold prog_part.
  rewrite strip_no_space by now apply order_code_no_space.
  unfold order_code at 1. rewrite startswith_app.
  unfold order_code. rewrite order_prefix_split, <- append_assoc.
  rewrite after_slash_app.
  - now apply py_int_format_04d.
  - rewrite all_chars_app.
    rewrite (all_chars_impl is_digit not_slash (str_of_N year) digit_not_slash)
      by apply all_digits_str_of_N.
    reflexivity.
Qed.



Lemma foldr_max_init p m (l : list Z) :
  foldr Z.max (Z.max p m) l = Z.max p (foldr Z.max m l).
Proof. induction l as [|x l IHl]; simpl; [reflexivity|]. rewrite IHl. lia. Qed.

(** The running maximum of the loop is the greatest sequence number, or 0. *)
Lemma foldl_max_prog_step codes : forall m,
  foldl (max_prog_step year) m codes
  = foldr Z.max m (omap (prog_part year) codes).
Proof.
  assert (Hstep : forall m code,
            max_prog_step year m code
            = match prog_part year code with Some p => Z.max p m | None => m end).
  { intros m code. unfold max_prog_step.
    destruct (truthy code) eqn:Ht.
    - destruct (prog_part year code) as [p|]; [|reflexivity].
      destruct (Z.ltb_spec m p); lia.
    - destruct code; [|discriminate]. reflexivity. }
  induction codes as [|code codes IH]; intros m; simpl; [reflexivity|].
  rewrite IH, Hstep. clear IH Hstep.
  destruct (prog_part year code) as [p|]; simpl; [|reflexivity].
  apply foldr_max_init.
Qed.

Lemma max_prog_seq_numbers storico :
  max_prog year storico = foldr Z.max 0 (seq_numbers year storico).
Proof. apply foldl_max_prog_step. Qed.

Lemma max_prog_nonneg storico : 0 <= max_prog year storico.
Proof.
  rewrite max_prog_seq_numbers.
  induction (seq_numbers year storico); simpl; lia.
Qed.







End OrderCodeFacts.

(** ** Confirmation and the ledger *)

Section ConfirmFacts.

Variable year : N.






End ConfirmFacts.



(** The first confirmation of 2025 gets [TM2025/0001] and the next one
    [TM2025/0002]; a request for a draft that does not exist issues
    nothing. *)
Example sample_codes :
  issued_codes (confirm_all 2025 sample_requests sample_db).2
  = ["TM2025/0001"; "TM2025/0002"].
Proof. vm_compute. reflexivity. Qed.

(** ** Acceptance *)

Section AcceptanceFacts.


Lemma residuo_bound row q :
  0 < q -> quantita_totale row - quantita_ricevuta row < q -> residuo row < q.
Proof.
  unfold residuo. intros Hq Hr.
  destruct (Z.ltb_spec (quantita_totale row - quantita_ricevuta row) 0); lia.
Qed.

(** What [accettazione_update] lets through. *)
Lemma accettazione_update_redirect d acc_id quantita quantita_parziale id q :
  accettazione_update d acc_id quantita quantita_parziale = RedirectAdd id q ->
  id = acc_id /\ q = q_parziale_of quantita quantita_parziale
  /\ exists row, riordini_accettazione d !! acc_id = Some row
                 /\ 0 < q <= residuo row.
Proof.
  unfold accettazione_update.
  destruct (riordini_accettazione d !! acc_id) as [row|]; [|discriminate].
  destruct (match acc_numero_ordine row with
            | Some numero_ord => truthy numero_ord && negb (supplier_locked d numero_ord)
            | None => false
            end); [discriminate|].
  destruct (Z.leb_spec (q_parziale_of quantita quantita_parziale) 0); [discriminate|].
  destruct (Z.ltb_spec (residuo row) (q_parziale_of quantita quantita_parziale));
    [discriminate|].
  intros [= <- <-]. repeat split; eauto with lia.
Qed.



(** The acceptance block on its own, whatever the posted quantity and
    total: a row that is still there afterwards has not lost any received
    quantity, and holds less than its total when the total is positive. *)
Lemma add_acceptance_any d acc_id new_total q forn prod lettera numero row' :
  riordini_accettazione
    (add_acceptance d (Some acc_id) new_total q forn prod lettera numero) !! acc_id
  = Some row' ->
  exists row,
    riordini_accettazione d !! acc_id = Some row
    /\ quantita_ricevuta row <= quantita_ricevuta row'
    /\ (0 < quantita_totale row' -> quantita_ricevuta row' < quantita_totale row').
Proof.
  unfold add_acceptance.
  destruct (riordini_accettazione d !! acc_id) as [row|] eqn:Hrow;
    [|intros H; rewrite Hrow in H; discriminate].
  intros H. exists row. split; [reflexivity|].
  set (q_totale := default (quantita_totale row) new_total) in *.
  destruct (Z.ltb_spec 0 q) as [Hq|Hq];
    (destruct (Z.ltb_spec 0 q_totale) as [Ht|Ht];
     [match type of H with
      | context [?a <=? ?b] => destruct (Z.leb_spec a b) as [Hd|Hd]
      end|]);
    cbn [andb] in H; subst q_totale; destruct new_total as [nt|]; cbn in *;
    rewrite ?lookup_delete_eq, ?lookup_insert_eq, ?Hrow in H;
    try discriminate; injection H as <-; cbn; lia.
Qed.




End AcceptanceFacts.

(** C4, amended. A receipt is refused, and no table is changed, whenever
    the row carries an order code that is not empty and whose supplier is
    not locked, whenever the quantity is not positive, and whenever the
    quantity exceeds the residual [quantita_totale - quantita_ricevuta]. *)
Theorem receive_refused d acc_id row quantita dl :
  riordini_accettazione d !! acc_id = Some row ->
  (exists numero_ord,
      acc_numero_ordine row = Some numero_ord /\ numero_ord <> ""
      /\ supplier_locked d numero_ord = false)
  \/ q_parziale_of (Some quantita) None <= 0
  \/ quantita_totale row - quantita_ricevuta row < q_parziale_of (Some quantita) None ->
  exists why, receive d acc_id quantita dl = (d, Refused why).
Proof.
  intros Hrow Hcase. unfold receive, accettazione_update. rewrite Hrow.
  set (q := q_parziale_of (Some quantita) None) in *.
  destruct (match acc_numero_ordine row with
            | Some numero_ord => truthy numero_ord && negb (supplier_locked d numero_ord)
            | None => false
            end) eqn:Hlock; [eauto|].
  destruct (Z.leb_spec q 0); [eauto|].
  destruct (Z.ltb_spec (residuo row) q); [eauto|].
  exfalso. destruct Hcase as [(numero_ord & Hcode & Hne & Hl)|[Hq|Hq]].
  - rewrite Hcode, Hl in Hlock. destruct numero_ord; [congruence | discriminate].
  - lia.
  - pose proof (residuo_bound row q). lia.
Qed.

Lemma receive_refused_witness :
  riordini_accettazione manual_db !! 1 = Some (manual_row 8 0)
  /\ quantita_totale (manual_row 8 0) - quantita_ricevuta (manual_row 8 0)
     < q_parziale_of (Some "9") None
  /\ exists why, receive manual_db 1 "9" sample_delivery = (manual_db, Refused why).
Proof.
  split; [reflexivity|]. split; [reflexivity|].
  apply (receive_refused manual_db 1 (manual_row 8 0) "9" sample_delivery).
  - reflexivity.
  - right. right. reflexivity.
Defined.

(** C4 as stated fails for a row without order code: no supplier was
    ever locked for it, yet a receipt within the residual goes through and
    the received quantity grows. *)
Lemma receive_manual_order_not_refused :
  order_supplier_locked manual_db (manual_row 8 0) = false
  /\ (receive manual_db 1 "3" sample_delivery).2 = RedirectAdd 1 3
  /\ quantita_ricevuta
       <$> riordini_accettazione (receive manual_db 1 "3" sample_delivery).1 !! 1
     = Some 3
  /\ (receive manual_db 1 "3" sample_delivery).1 <> manual_db.
Proof.
  repeat split; try (vm_compute; reflexivity).
  intros Heq.
  assert (H : length (riordini_effettuati (receive manual_db 1 "3" sample_delivery).1)
              = length (riordini_effettuati manual_db)) by now rewrite Heq.
  vm_compute in H. discriminate.
Qed.




(** Receiving 8 on a row with total 8 and nothing received closes the row
    and logs one event of quantity 8; receiving 9 is refused; after 3 and
    then 4 the row holds 7 of 8. *)
Example receive_closes :
  riordini_accettazione (receive manual_db 1 "8" sample_delivery).1 !! 1 = None
  /\ st_quantita <$> riordini_effettuati (receive manual_db 1 "8" sample_delivery).1 = [8]
  /\ receive manual_db 1 "9" sample_delivery = (manual_db, Refused OverResidual)
  /\ quantita_ricevuta
       <$> riordini_accettazione
             (receive_all manual_db [(1, "3", sample_delivery); (1, "9", sample_delivery);
                                     (1, "4", sample_delivery)]) !! 1
     = Some 7.
Proof. repeat split; vm_compute; reflexivity. Qed.

(** C10. When the order code of the row is null or empty,
    [accettazione_update] does not look at the supplier lock: whatever
    [ordine_fornitori] holds, the receipt depends on the quantity alone,
    and a quantity within the residual is let through. *)
Theorem accettazione_update_without_order d acc_id row quantita quantita_parziale :
  riordini_accettazione d !! acc_id = Some row ->
  acc_numero_ordine row = None \/ acc_numero_ordine row = Some "" ->
  let q := q_parziale_of quantita quantita_parziale in
  accettazione_update d acc_id quantita quantita_parziale
  = (if q <=? 0 then Refused NonPositive
     else if residuo row <? q then Refused OverResidual
     else RedirectAdd acc_id q)
  /\ (0 < q <= residuo row ->
      accettazione_update d acc_id quantita quantita_parziale = RedirectAdd acc_id q).
Proof.
  intros Hrow Hcode q.
  assert (Heq : accettazione_update d acc_id quantita quantita_parziale
                = (if q <=? 0 then Refused NonPositive
                   else if residuo row <? q then Refused OverResidual
                   else RedirectAdd acc_id q)).
  { unfold accettazione_update. rewrite Hrow.
    destruct Hcode as [-> | ->]; reflexivity. }
  split; [exact Heq|].
  intros Hq. rewrite Heq.
  destruct (Z.leb_spec q 0); [lia|].
  destruct (Z.ltb_spec (residuo row) q); [lia | reflexivity].
Qed.

Lemma accettazione_update_without_order_witness :
  riordini_accettazione manual_db !! 1 = Some (manual_row 8 0)
  /\ (acc_numero_ordine (manual_row 8 0) = None
      \/ acc_numero_ordine (manual_row 8 0) = Some "")
  /\ ordine_fornitori manual_db = ∅
  /\ accettazione_update manual_db 1 (Some "3") None = RedirectAdd 1 3.
Proof.
  split; [reflexivity|]. split; [left; reflexivity|]. split; [reflexivity|].
  refine (proj2 (accettazione_update_without_order manual_db 1 (manual_row 8 0)
                   (Some "3") None eq_refl (or_introl eq_refl)) _).
  vm_compute. split; [reflexivity | discriminate].
Defined.

(** ** Locks *)

Section LockFacts.

Lemma lock_row_lookup numero_ordine val tbl :
  exists r, lock_row numero_ordine val tbl !! numero_ordine = Some r
            /\ scelto r = Some val /\ locked r = Some 1.
Proof.
  unfold lock_row.
  destruct (tbl !! numero_ordine) as [r|] eqn:Hr.
  - exists {| elenco := elenco r; scelto := Some val; locked := Some 1 |}.
    rewrite lookup_alter_eq, Hr. auto.
  - eexists. rewrite lookup_alter_eq, lookup_insert_eq. simpl. auto.
Qed.

Lemma row_locked_after numero_ordine val tbl :
  row_locked (lock_row numero_ordine val tbl !! numero_ordine) = true.
Proof.
  destruct (lock_row_lookup numero_ordine val tbl) as (r & -> & _ & Hl).
  unfold row_locked. now rewrite Hl.
Qed.

Lemma truthy_negb s : s <> "" -> negb (truthy s) = false.
Proof. destruct s; [congruence | reflexivity]. Qed.

(** An attempt that goes through had an order code, and leaves the
    table locked for it. *)
Lemma set_fornitore_ok d numero fornitore :
  (set_fornitore_ordine d numero fornitore).2 = LockOk ->
  negb (truthy (strip (or_empty numero))) = false
  /\ ordine_fornitori (set_fornitore_ordine d numero fornitore).1
     = lock_row (strip (or_empty numero)) (strip (or_empty fornitore))
                (ordine_fornitori d).
Proof.
  unfold set_fornitore_ordine.
  destruct (negb (truthy (strip (or_empty numero)))); [discriminate|].
  destruct (negb (truthy (strip (or_empty fornitore)))); [discriminate|].
  cbn [orb].
  destruct (row_locked (ordine_fornitori d !! strip (or_empty numero)));
    [discriminate|].
  intros _. split; reflexivity.
Qed.

Lemma set_produttore_ok d numero produttore :
  (set_produttore_ordine d numero produttore).2 = LockOk ->
  negb (truthy (strip (or_empty numero))) = false
  /\ ordine_produttori (set_produttore_ordine d numero produttore).1
     = lock_row (strip (or_empty numero)) (strip (or_empty produttore))
                (ordine_produttori d).
Proof.
  unfold set_produttore_ordine.
  destruct (negb (truthy (strip (or_empty numero)))); [discriminate|].
  destruct (negb (truthy (strip (or_empty produttore)))); [discriminate|].
  cbn [orb].
  destruct (row_locked (ordine_produttori d !! strip (or_empty numero)));
    [discriminate|].
  intros _. split; reflexivity.
Qed.

End LockFacts.

(** C8. Locking the supplier, and likewise the producer, of an order is
    done once: when the lock flag of the order code is set, a further
    attempt changes no table and is answered with an error, the conflict
    error "already confirmed" (status 400) when both fields are given; in
    particular after an attempt that went through, a second one fails and
    the stored choice is still the first. *)
Theorem lock_once :
  (forall d numero fornitore,
      row_locked (ordine_fornitori d !! strip (or_empty numero)) = true ->
      (exists e, set_fornitore_ordine d numero fornitore = (d, LockError e 400))
      /\ (strip (or_empty numero) <> "" -> strip (or_empty fornitore) <> "" ->
          set_fornitore_ordine d numero fornitore = (d, LockError GiaConfermato 400)))
  /\ (forall d numero produttore,
         row_locked (ordine_produttori d !! strip (or_empty numero)) = true ->
         (exists e, set_produttore_ordine d numero produttore = (d, LockError e 400))
         /\ (strip (or_empty numero) <> "" -> strip (or_empty produttore) <> "" ->
             set_produttore_ordine d numero produttore = (d, LockError GiaConfermato 400)))
  /\ (forall d numero first second,
         (set_fornitore_ordine d numero first).2 = LockOk ->
         strip (or_empty second) <> "" ->
         let d1 := (set_fornitore_ordine d numero first).1 in
         set_fornitore_ordine d1 numero second = (d1, LockError GiaConfermato 400)
         /\ scelto <$> ordine_fornitori d1 !! strip (or_empty numero)
            = Some (Some (strip (or_empty first))))
  /\ (forall d numero first second,
         (set_produttore_ordine d numero first).2 = LockOk ->
         strip (or_empty second) <> "" ->
         let d1 := (set_produttore_ordine d numero first).1 in
         set_produttore_ordine d1 numero second = (d1, LockError GiaConfermato 400)
         /\ scelto <$> ordine_produttori d1 !! strip (or_empty numero)
            = Some (Some (strip (or_empty first)))).
Proof.
  split; [|split; [|split]].
  - intros d numero fornitore Hl. unfold set_fornitore_ordine.
    split.
    + destruct (negb (truthy (strip (or_empty numero)))
                || negb (truthy (strip (or_empty fornitore)))); [eauto|].
      rewrite Hl. eauto.
    + intros Hn Hf. rewrite (truthy_negb _ Hn), (truthy_negb _ Hf), Hl. reflexivity.
  - intros d numero produttore Hl. unfold set_produttore_ordine.
    split.
    + destruct (negb (truthy (strip (or_empty numero)))
                || negb (truthy (strip (or_empty produttore)))); [eauto|].
      rewrite Hl. eauto.
    + intros Hn Hf. rewrite (truthy_negb _ Hn), (truthy_negb _ Hf), Hl. reflexivity.
  - intros d numero first second Hok Hsecond d1.
    destruct (set_fornitore_ok d numero first Hok) as (Hn & Htbl).
    fold d1 in Htbl. clearbody d1. unfold set_fornitore_ordine.
    rewrite Hn, (truthy_negb _ Hsecond), Htbl, row_locked_after.
    split; [reflexivity|].
    destruct (lock_row_lookup (strip (or_empty numero)) (strip (or_empty first))
                (ordine_fornitori d)) as (r & -> & Hs & _).
    simpl. now rewrite Hs.
  - intros d numero first second Hok Hsecond d1.
    destruct (set_produttore_ok d numero first Hok) as (Hn & Htbl).
    fold d1 in Htbl. clearbody d1. unfold set_produttore_ordine.
    rewrite Hn, (truthy_negb _ Hsecond), Htbl, row_locked_after.
    split; [reflexivity|].
    destruct (lock_row_lookup (strip (or_empty numero)) (strip (or_empty first))
                (ordine_produttori d)) as (r & -> & Hs & _).
    simpl. now rewrite Hs.
Qed.

Lemma lock_once_witness :
  (set_fornitore_ordine unlocked_db (Some " TM2025/0001 ") (Some "Alfa")).2 = LockOk
  /\ strip (or_empty (Some "Beta")) <> ""
  /\ let d1 := (set_fornitore_ordine unlocked_db (Some " TM2025/0001 ") (Some "Alfa")).1 in
     set_fornitore_ordine d1 (Some " TM2025/0001 ") (Some "Beta")
     = (d1, LockError GiaConfermato 400)
     /\ scelto <$> ordine_fornitori d1 !! strip (or_empty (Some " TM2025/0001 "))
        = Some (Some (strip (or_empty (Some "Alfa")))).
Proof.
  assert (Hok : (set_fornitore_ordine unlocked_db (Some " TM2025/0001 ") (Some "Alfa")).2
                = LockOk) by reflexivity.
  assert (Hne : strip (or_empty (Some "Beta")) <> "") by (vm_compute; discriminate).
  split; [exact Hok|]. split; [exact Hne|].
  exact (proj1 (proj2 (proj2 lock_once)) unlocked_db (Some " TM2025/0001 ")
           (Some "Alfa") (Some "Beta") Hok Hne).
Defined.

(** The first lock also stamps the supplier on the order event of the
    ledger. *)
Example lock_stamps_ledger :
  st_fornitore
    <$> riordini_effettuati
          (set_fornitore_ordine unlocked_db (Some "TM2025/0001") (Some "Alfa")).1
  = [Some "Alfa"].
Proof. vm_compute. reflexivity. Qed.

(** ** The shortage pass *)

Section ShortageFacts.

Variable sn : snapshot.

Lemma riordini_step_flagged st row :
  Forall (flagged sn) st.2 ->
  Forall (flagged sn) (riordini_step sn (active_keys (sn_db sn)) st row).2.
Proof.
  intros Hst. unfold riordini_step.
  destruct (bool_decide (combo_key row ∈ st.1)); [exact Hst|].
  destruct (bool_decide (combo_key row ∈ active_keys (sn_db sn))) eqn:Hact;
    [exact Hst|].
  destruct (Z.eqb_spec (th_val_of (sn_soglie sn) (combo_key row)) 0) as [|Hth];
    [exact Hst|].
  destruct (Z.leb_spec (total_qty_of (sn_materiali sn) (combo_key row))
                       (th_val_of (sn_soglie sn) (combo_key row))) as [Hle|];
    [|exact Hst].
  cbn [snd]. apply Forall_app. split; [exact Hst|].
  constructor; [|constructor].
  apply bool_decide_eq_false in Hact.
  unfold flagged. cbn [rr_key rr_quantita_totale rr_riordino_qty].
  repeat split; auto.
Qed.

Lemma riordini_loop_flagged catalog : forall st,
  Forall (flagged sn) st.2 ->
  Forall (flagged sn) (foldl (riordini_step sn (active_keys (sn_db sn))) st catalog).2.
Proof.
  induction catalog as [|row rest IH]; intros st Hst; [exact Hst|].
  simpl. apply IH. now apply riordini_step_flagged.
Qed.

Lemma reorder_rows_flagged : Forall (flagged sn) (reorder_rows sn).
Proof. unfold reorder_rows. apply riordini_loop_flagged. constructor. Qed.

End ShortageFacts.

Lemma riordino_qty_flagged stock th R :
  stock <= th -> riordino_qty stock th R = Some (suggest_spec stock th R).
Proof.
  intros Hle. unfold riordino_qty, suggest_spec.
  destruct (Z.leb_spec stock th); [|lia].
  destruct R as [r|]; [|reflexivity].
  now destruct (stock + r <=? th + 1).
Qed.

Lemma rq_manual_positive t k r : rq_manual_of t k = Some r -> 0 < r.
Proof.
  unfold rq_manual_of.
  destruct (match reorder_qty_map_ext t !! k with
            | Some v => v
            | None => mjoin (reorder_qty_map t !! legacy_key k)
            end) as [v|]; [|discriminate].
  destruct (Z.leb_spec v 0); [discriminate|]. intros [= <-]. lia.
Qed.

(** C6. An article whose applicable threshold rule has threshold 0 never
    appears in the reorder list, whatever its stock. *)
Theorem threshold_zero_never_flagged (sn : snapshot) (k : key6) :
  th_val_of (sn_soglie sn) k = 0 ->
  forall r, r ∈ reorder_rows sn -> rr_key r <> k.
Proof.
  intros Hzero r Hr Hk.
  pose proof (reorder_rows_flagged sn) as Hall.
  rewrite Forall_forall in Hall. destruct (Hall r Hr) as (Hth & _).
  rewrite Hk in Hth. contradiction.
Qed.

Lemma threshold_zero_never_flagged_witness :
  th_val_of (sn_soglie (sample_snapshot (update_soglia saved_soglie marble (Some "0"))))
            (article_key marble) = 0
  /\ total_qty_of
       (sn_materiali (sample_snapshot (update_soglia saved_soglie marble (Some "0"))))
       (article_key marble) = 3
  /\ forall r,
       r ∈ reorder_rows (sample_snapshot (update_soglia saved_soglie marble (Some "0"))) ->
       rr_key r <> article_key marble.
Proof.
  split; [vm_compute; reflexivity|]. split; [vm_compute; reflexivity|].
  apply threshold_zero_never_flagged. vm_compute. reflexivity.
Defined.

(** C7. For every line of the reorder list the stock is at most the
    threshold and the suggested quantity is [threshold + 1 - stock] when
    no manual reorder quantity is set (hence at least 1), the same when a
    manual quantity [R] is set with [stock + R <= threshold + 1], and [R]
    otherwise. Stock 3 and threshold 5 give 3 without manual quantity and
    10 with [R = 10]. *)
Theorem suggested_quantity (sn : snapshot) (r : reorder_row) :
  r ∈ reorder_rows sn ->
  let stock := rr_quantita_totale r in
  let threshold := th_val_of (sn_soglie sn) (rr_key r) in
  let R := rq_manual_of (sn_soglie sn) (rr_key r) in
  stock = total_qty_of (sn_materiali sn) (rr_key r)
  /\ stock <= threshold
  /\ rr_riordino_qty r = Some (suggest_spec stock threshold R)
  /\ match R with
     | None => rr_riordino_qty r = Some (threshold + 1 - stock)
               /\ 1 <= threshold + 1 - stock
     | Some m =>
         0 < m
         /\ (stock + m <= threshold + 1 ->
             rr_riordino_qty r = Some (threshold + 1 - stock))
         /\ (threshold + 1 < stock + m -> rr_riordino_qty r = Some m)
     end
  /\ riordino_qty 3 5 None = Some 3
  /\ riordino_qty 3 5 (Some 10) = Some 10.
Proof.
  intros Hr stock threshold R.
  pose proof (reorder_rows_flagged sn) as Hall.
  rewrite Forall_forall in Hall.
  destruct (Hall r Hr) as (_ & _ & Hstock & Hle & Hrq).
  fold stock threshold R in Hstock, Hle, Hrq.
  rewrite riordino_qty_flagged in Hrq by exact Hle.
  repeat split; auto.
  rewrite Hrq. unfold suggest_spec.
  destruct R as [m|] eqn:HR.
  - split; [now apply (rq_manual_positive _ _ _ HR)|].
    split; intros Hm; destruct (Z.leb_spec (stock + m) (threshold + 1));
      solve [reflexivity | lia].
  - split; [reflexivity | lia].
Qed.

Lemma suggested_quantity_witness :
  {| rr_key := article_key marble; rr_quantita_totale := 3; rr_riordino_qty := Some 10 |}
    ∈ reorder_rows (sample_snapshot (config_save_row no_soglie marble "5" "10"))
  /\ Some 10
     = Some (suggest_spec 3
               (th_val_of (config_save_row no_soglie marble "5" "10") (article_key marble))
               (rq_manual_of (config_save_row no_soglie marble "5" "10")
                             (article_key marble))).
Proof.
  assert (Hin : {| rr_key := article_key marble; rr_quantita_totale := 3;
                   rr_riordino_qty := Some 10 |}
                  ∈ reorder_rows (sample_snapshot (config_save_row no_soglie marble "5" "10"))).
  { vm_compute. apply list_elem_of_here. }
  split; [exact Hin|].
  exact (proj1 (proj2 (proj2 (suggested_quantity _ _ Hin)))).
Defined.

(** The article of the specification: stock 3 (the scrap is not counted)
    against the default threshold 5 is listed with 3 to order; with the
    rule (5, 10) it is listed with 10; once it is listed it is listed
    once. *)
Example sample_reorder_rows :
  reorder_rows (sample_snapshot no_soglie)
  = [{| rr_key := article_key marble; rr_quantita_totale := 3;
        rr_riordino_qty := Some 3 |}]
  /\ reorder_rows (sample_snapshot (config_save_row no_soglie marble "5" "10"))
     = [{| rr_key := article_key marble; rr_quantita_totale := 3;
           rr_riordino_qty := Some 10 |}].
Proof. split; vm_compute; reflexivity. Qed.

(** ** Threshold rules *)



(** * Further properties of the workflow *)

(** ** Trimming twice *)

Section StripFacts.

Lemma rstrip_cons c s :
  rstrip (String c s)
  = match rstrip s with
    | EmptyString => if py_isspace c then EmptyString else String c EmptyString
    | r => String c r
    end.
Proof. reflexivity. Qed.

(** [rstrip] leaves a string that [rstrip] does not change. *)
Lemma rstrip_idem s : rstrip (rstrip s) = rstrip s.
Proof.
  induction s as [|c s IH]; [reflexivity|].
  rewrite rstrip_cons.
  destruct (rstrip s) as [|c' r] eqn:Hr.
  - destruct (py_isspace c) eqn:Hc; [reflexivity|].
    rewrite rstrip_cons. simpl. now rewrite Hc.
  - rewrite rstrip_cons, IH. reflexivity.
Qed.

(** Dropping leading white space does not bring back trailing white
    space. *)
Lemma rstrip_lstrip s : rstrip s = s -> rstrip (lstrip s) = lstrip s.
Proof.
  induction s as [|c s IH]; [reflexivity|].
  intros H. simpl lstrip. destruct (py_isspace c) eqn:Hc; [|exact H].
  apply IH. rewrite rstrip_cons in H.
  destruct (rstrip s) as [|c' r] eqn:Hr.
  - rewrite Hc in H. discriminate.
  - now injection H.
Qed.

Lemma lstrip_idem s : lstrip (lstrip s) = lstrip s.
Proof.
  induction s as [|c s IH]; [reflexivity|].
  simpl. destruct (py_isspace c) eqn:Hc; [exact IH|].
  simpl. now rewrite Hc.
Qed.

Lemma strip_idem s : strip (strip s) = strip s.
Proof.
  unfold strip.
  rewrite (rstrip_lstrip (rstrip s)) by apply rstrip_idem.
  apply lstrip_idem.
Qed.

End StripFacts.

(** ** Editing a draft *)

Section StagingFacts.


End StagingFacts.



(** ** The fan-out of a confirmation *)

Section FanOutFacts.

Variables (rdo : rdo_row) (numero_ordine : string) (forn prod : option string).

Local Abbreviation step := (fan_out_step rdo numero_ordine forn prod).

Lemma fan_out_step_positive st drow :
  0 < default 0 (rd_quantita drow) ->
  exists row,
    step st drow = (insert_accettazione row st.1, S st.2)
    /\ quantita_totale row = default 0 (rd_quantita drow)
    /\ quantita_ricevuta row = 0
    /\ acc_numero_ordine row = Some numero_ordine
    /\ acc_fornitore row = forn
    /\ acc_data_prevista row = rd_data_prevista drow.
Proof.
  intros Hq. unfold fan_out_step.
  destruct (Z.leb_spec (default 0 (rd_quantita drow)) 0); [lia|].
  eexists. split; [reflexivity|]. repeat split.
Qed.

(** One expected delivery per date, in order, after the identifiers in
    use; nothing else is written. *)
Lemma fan_out_rows dates : forall st,
  Forall (fun dr => 0 < default 0 (rd_quantita dr)) dates ->
  acc_seq (foldl step st dates).1 = acc_seq st.1 + Z.of_nat (length dates)
  /\ (foldl step st dates).2 = (st.2 + length dates)%nat
  /\ same_but_accettazione st.1 (foldl step st dates).1
  /\ (forall id, id <= acc_seq st.1 ->
        riordini_accettazione (foldl step st dates).1 !! id
        = riordini_accettazione st.1 !! id)
  /\ (forall (i : nat) dr, dates !! i = Some dr ->
        exists row,
          riordini_accettazione (foldl step st dates).1
            !! (acc_seq st.1 + 1 + Z.of_nat i) = Some row
          /\ quantita_totale row = default 0 (rd_quantita dr)
          /\ quantita_ricevuta row = 0
          /\ acc_numero_ordine row = Some numero_ordine
          /\ acc_fornitore row = forn
          /\ acc_data_prevista row = rd_data_prevista dr).
Proof.
  induction dates as [|dr0 rest IH]; intros st Hpos.
  - simpl. repeat split; try lia. intros i dr Hi. discriminate.
  - apply Forall_cons in Hpos as [Hdr Hrest].
    destruct (fan_out_step_positive st dr0 Hdr)
      as (row0 & Hstep & Ht & Hr & Hc & Hf & Hd).
    simpl foldl. rewrite Hstep.
    destruct (IH (insert_accettazione row0 st.1, S st.2) Hrest)
      as (Hseq & Hn & Hsame & Hold & Hnew).
    cbn [fst snd] in Hseq, Hn, Hsame, Hold, Hnew.
    change (acc_seq (insert_accettazione row0 st.1)) with (acc_seq st.1 + 1)
      in Hseq, Hold, Hnew.
    split; [rewrite Hseq; simpl length; lia|].
    split; [rewrite Hn; simpl length; lia|].
    split; [exact Hsame|].
    split.
    + intros id Hid. rewrite Hold by lia.
      unfold insert_accettazione. cbn [riordini_accettazione].
      apply lookup_insert_ne. lia.
    + intros [|i] dr Hi.
      * injection Hi as <-. exists row0.
        rewrite Hold by lia.
        unfold insert_accettazione. cbn [riordini_accettazione].
        replace (acc_seq st.1 + 1 + Z.of_nat 0) with (acc_seq st.1 + 1) by lia.
        rewrite lookup_insert_eq. repeat split; assumption.
      * destruct (Hnew i dr Hi) as (row & Hrow & Hrest').
        exists row. split; [|exact Hrest'].
        rewrite <- Hrow. f_equal. lia.
Qed.

End FanOutFacts.

Section ConfirmRows.

Lemma clean_loop_all_positive prods_list form_prod items : forall idx remaining,
  Forall (fun t => 0 < triple_qty t) (clean_loop prods_list form_prod idx items remaining).
Proof.
  induction items as [|[dt_raw q_raw] rest IH]; intros idx remaining; simpl;
    [constructor|].
  destruct (truthy (strip dt_raw)); simpl; [|apply IH].
  set (q := if (idx =? 0)%nat && (qty_of q_raw <? 1) then 1 else qty_of q_raw).
  set (c := if remaining <? q then remaining else q).
  destruct (Z.ltb_spec 0 c).
  - constructor; [exact H|].
    destruct (remaining - c <=? 0); [constructor | apply IH].
  - destruct (remaining <=? 0); [constructor | apply IH].
Qed.

Lemma clean_pairs_all_positive dates qtys prods form_prod Q :
  Forall (fun t => 0 < triple_qty t) (clean_pairs dates qtys prods form_prod Q).
Proof.
  unfold clean_pairs. destruct dates; [constructor | apply clean_loop_all_positive].
Qed.

Lemma dates_of_delete rdo_id l : dates_of rdo_id (delete_dates rdo_id l) = [].
Proof.
  unfold dates_of, delete_dates.
  induction l as [|r l IH]; [reflexivity|].
  rewrite (filter_cons (fun r => rd_rdo_id r <> rdo_id)).
  destruct (decide (rd_rdo_id r <> rdo_id)) as [Hne|]; [|exact IH].
  rewrite filter_cons. destruct (decide (rd_rdo_id r = rdo_id)); [contradiction | exact IH].
Qed.

Lemma dates_of_new rdo_id (clean : list triple) :
  dates_of rdo_id (date_row rdo_id <$> clean) = date_row rdo_id <$> clean.
Proof.
  unfold dates_of.
  induction clean as [|t clean IH]; [reflexivity|].
  rewrite fmap_cons, filter_cons.
  destruct (decide (rd_rdo_id (date_row rdo_id t) = rdo_id)) as [_|Hne];
    [now rewrite IH | now contradiction Hne].
Qed.

Lemma dates_of_app rdo_id l1 l2 :
  dates_of rdo_id (l1 ++ l2)%list = (dates_of rdo_id l1 ++ dates_of rdo_id l2)%list.
Proof. apply filter_app. Qed.

End ConfirmRows.

Section CommitFacts.

Variable year : N.

(** What [commit_rdo] leaves behind, for the dates stored with the
    draft. *)
Lemma commit_rdo_rows rdo_id rdo d dates :
  dates_of rdo_id (rdo_dates d) = dates ->
  Forall (fun dr => 0 < date_total dr) dates ->
  let totals := match dates with
                | [] => [default 0 (rdo_quantita rdo)]
                | _ => date_total <$> dates
                end in
  let code := generate_order_code year (riordini_effettuati d) in
  let forn := chosen (rdo_fornitore_scelto rdo) (comma_list (rdo_fornitori rdo)) in
  let r := commit_rdo year rdo_id rdo d in
  r.2 = Confirmed code (length totals)
  /\ acc_seq r.1 = acc_seq d + Z.of_nat (length totals)
  /\ (forall id, id <= acc_seq d ->
        riordini_accettazione r.1 !! id = riordini_accettazione d !! id)
  /\ (forall (i : nat) q, totals !! i = Some q ->
        exists row,
          riordini_accettazione r.1 !! (acc_seq d + 1 + Z.of_nat i) = Some row
          /\ quantita_totale row = q
          /\ quantita_ricevuta row = 0
          /\ acc_numero_ordine row = Some code
          /\ acc_fornitore row = forn)
  /\ riordini_rdo r.1 = delete rdo_id (riordini_rdo d)
  /\ rdo_dates r.1 = delete_dates rdo_id (rdo_dates d)
  /\ ordine_fornitori r.1
     = <[code := {| elenco := comma_join (comma_list (rdo_fornitori rdo));
                    scelto := opt_or_none forn; locked := Some 1 |}]>
         (ordine_fornitori d).
Proof.
  intros Hdates Hpos totals code forn r. subst r. unfold commit_rdo.
  fold code. fold forn.
  cbn [rdo_dates set_storico set_ordine_produttori set_ordine_fornitori].
  rewrite Hdates.
  destruct dates as [|dr0 rest].
  - cbn [fst snd]. subst totals. cbn [length].
    split_and!.
    + reflexivity.
    + cbn. lia.
    + intros id Hid. cbn. apply lookup_insert_ne. lia.
    + intros [|i] q Hq; [|discriminate]. injection Hq as <-.
      eexists. split.
      * cbn. replace (acc_seq d + 1 + Z.of_nat 0) with (acc_seq d + 1) by lia.
        apply lookup_insert_eq.
      * split_and!; reflexivity.
    + reflexivity.
    + reflexivity.
    + reflexivity.
  - match goal with
    | |- context [foldl ?f ?st (dr0 :: rest)] =>
        pose proof (fan_out_rows rdo code forn
                      (chosen (rdo_produttore_scelto rdo) (comma_list (rdo_produttori rdo)))
                      (dr0 :: rest) st Hpos) as Hrows;
        destruct (foldl f st (dr0 :: rest)) as [d' n] eqn:Hf
    end.
    cbn [fst snd] in Hrows |- *.
    destruct Hrows as (Hseq & Hn & (Hrdo & Hdt & Hst & Hfo & Hpr) & Hold & Hnew).
    cbn in Hseq, Hn, Hrdo, Hdt, Hst, Hfo, Hpr.
    subst totals. rewrite length_fmap.
    split_and!.
    + rewrite Hn. reflexivity.
    + cbn. rewrite Hseq. reflexivity.
    + intros id Hid. cbn. rewrite Hold by (cbn; lia). reflexivity.
    + intros i q Hq. apply list_lookup_fmap_Some in Hq as (dr & -> & Hdr).
      destruct (Hnew i dr Hdr) as (row & Hrow & Ht & Hr & Hc & Hfn & _).
      exists row. cbn in Hrow |- *. split_and!; assumption.
    + cbn. now rewrite Hrdo.
    + cbn. now rewrite Hdt.
    + cbn. exact Hfo.
Qed.

End CommitFacts.

Section ConfirmExtras.

Variable year : N.





Lemma confirm_rdo_commit rdo_id form d rdo :
  riordini_rdo d !! rdo_id = Some rdo ->
  form_complete form rdo = true ->
  confirm_rdo year rdo_id form d
  = commit_rdo year rdo_id (updated_rdo form rdo) (staged rdo_id form rdo d).
Proof. intros Hrdo Hc. unfold confirm_rdo. now rewrite Hrdo, Hc. Qed.

Lemma staged_dates rdo_id form rdo d :
  dates_of rdo_id (rdo_dates (staged rdo_id form rdo d))
  = date_row rdo_id <$> form_clean_pairs form rdo.
Proof.
  unfold staged. cbn [rdo_dates set_rdo_dates set_riordini_rdo].
  now rewrite dates_of_app, dates_of_delete, dates_of_new.
Qed.

Lemma staged_dates_positive rdo_id form rdo :
  Forall (fun dr => 0 < date_total dr) (date_row rdo_id <$> form_clean_pairs form rdo).
Proof.
  apply Forall_fmap. unfold form_clean_pairs.
  eapply Forall_impl; [apply clean_pairs_all_positive|].
  intros t Ht. exact Ht.
Qed.



End ConfirmExtras.

Lemma dates_of_delete_ne id rdo_id l :
  id <> rdo_id -> dates_of id (delete_dates rdo_id l) = dates_of id l.
Proof.
  intros Hne. unfold dates_of, delete_dates.
  induction l as [|r l IH]; [reflexivity|].
  rewrite (filter_cons (fun r => rd_rdo_id r <> rdo_id)).
  rewrite (filter_cons (fun r => rd_rdo_id r = id) r l).
  destruct (decide (rd_rdo_id r <> rdo_id)) as [Hr|Hr].
  - rewrite filter_cons. destruct (decide (rd_rdo_id r = id)); now rewrite IH.
  - destruct (decide (rd_rdo_id r = id)) as [He|]; [|exact IH].
    exfalso. apply Hr. congruence.
Qed.

Lemma dates_of_new_ne id rdo_id (clean : list triple) :
  id <> rdo_id -> dates_of id (date_row rdo_id <$> clean) = [].
Proof.
  intros Hne. unfold dates_of.
  induction clean as [|t clean IH]; [reflexivity|].
  rewrite fmap_cons, filter_cons.
  destruct (decide (rd_rdo_id (date_row rdo_id t) = id)) as [He|]; [|exact IH].
  simpl in He. congruence.
Qed.





(** X4. A confirmation that goes through consumes the draft: the draft
    and its dates are gone, the other drafts and their dates are as
    before, and confirming the same draft again is refused as not found,
    with no further change. *)
Theorem confirm_rdo_consumes_draft (year : N) (rdo_id : Z) (form : confirm_form)
    (d : db) (rdo : rdo_row) :
  riordini_rdo d !! rdo_id = Some rdo ->
  form_complete form rdo = true ->
  let d' := (confirm_rdo year rdo_id form d).1 in
  riordini_rdo d' !! rdo_id = None
  /\ dates_of rdo_id (rdo_dates d') = []
  /\ (forall id, id <> rdo_id ->
        riordini_rdo d' !! id = riordini_rdo d !! id
        /\ dates_of id (rdo_dates d') = dates_of id (rdo_dates d))
  /\ forall year' form', confirm_rdo year' rdo_id form' d' = (d', RdoNotFound).
Proof.
  intros Hrdo Hc d'. subst d'.
  rewrite (confirm_rdo_commit year rdo_id form d rdo Hrdo Hc).
  destruct (commit_rdo_rows year rdo_id (updated_rdo form rdo) (staged rdo_id form rdo d)
              _ (staged_dates rdo_id form rdo d) (staged_dates_positive rdo_id form rdo))
    as (_ & _ & _ & _ & Hr & Hdt & _).
  set (d' := (commit_rdo year rdo_id (updated_rdo form rdo) (staged rdo_id form rdo d)).1)
    in *.
  assert (Hgone : riordini_rdo d' !! rdo_id = None)
    by (rewrite Hr; apply lookup_delete_eq).
  split_and!.
  - exact Hgone.
  - rewrite Hdt. apply dates_of_delete.
  - intros id Hid. split.
    + rewrite Hr, lookup_delete_ne by congruence.
      unfold staged. cbn [riordini_rdo set_rdo_dates set_riordini_rdo].
      apply lookup_insert_ne. congruence.
    + rewrite Hdt, dates_of_delete_ne by exact Hid.
      unfold staged. cbn [rdo_dates set_rdo_dates set_riordini_rdo].
      now rewrite dates_of_app, dates_of_delete_ne, dates_of_new_ne, app_nil_r.
  - intros year' form'. unfold confirm_rdo. now rewrite Hgone.
Qed.

Lemma confirm_rdo_consumes_draft_witness :
  riordini_rdo sample_db !! 1 = Some (sample_rdo 20)
  /\ form_complete (sample_form ["2025-06-01"] ["20"]) (sample_rdo 20) = true
  /\ riordini_rdo (confirm_rdo 2025 1 (sample_form ["2025-06-01"] ["20"]) sample_db).1
       !! 1 = None.
Proof.
  split; [reflexivity|]. split; [reflexivity|].
  exact (proj1 (confirm_rdo_consumes_draft 2025 1 (sample_form ["2025-06-01"] ["20"])
                  sample_db (sample_rdo 20) eq_refl eq_refl)).
Defined.


(** ** Order codes, orders placed without draft, and locks *)

Section CodeFacts.

Lemma foldr_max_ge (x : Z) (l : list Z) : x ∈ l -> x <= foldr Z.max 0 l.
Proof.
  induction l as [|y l IH]; intros Hin.
  - now apply elem_of_nil in Hin.
  - apply elem_of_cons in Hin as [->|Hin]; simpl; [lia|].
    specialize (IH Hin). lia.
Qed.



Lemma selected_codes_fmap (f : storico_row -> storico_row) l :
  (forall ev, st_numero_ordine (f ev) = st_numero_ordine ev) ->
  selected_codes (f <$> l) = selected_codes l.
Proof.
  intros Hf. unfold selected_codes.
  induction l as [|ev l IH]; [reflexivity|].
  rewrite fmap_cons. cbn [omap list_omap]. rewrite Hf.
  destruct (st_numero_ordine ev) as [code|]; [destruct (truthy code)|];
    first [now f_equal | exact IH].
Qed.

End CodeFacts.

(** X6. The code [generate_order_code] returns is new: no event of the
    ledger carries it, its sequence number is read back from it, and this
    number is greater than every sequence number the ledger holds for the
    year. *)
Theorem generate_order_code_fresh (year : N) (storico : list storico_row) :
  let code := generate_order_code year storico in
  (forall ev, ev ∈ storico -> st_numero_ordine ev <> Some code)
  /\ prog_part year code = Some (max_prog year storico + 1)
  /\ (forall n, n ∈ seq_numbers year storico -> n < max_prog year storico + 1).
Proof.
  intros code. pose proof (max_prog_nonneg year storico) as Hm.
  assert (Hpart : prog_part year code = Some (max_prog year storico + 1))
    by (apply prog_part_order_code; lia).
  assert (Hlt : forall n, n ∈ seq_numbers year storico -> n < max_prog year storico + 1).
  { intros n Hn. apply foldr_max_ge in Hn.
    rewrite <- max_prog_seq_numbers in Hn. lia. }
  split_and!; [|exact Hpart|exact Hlt].
  intros ev Hin Heq.
  assert (Hsel : code ∈ selected_codes storico).
  { unfold selected_codes. apply list_elem_of_omap. exists ev. split; [exact Hin|].
    rewrite Heq. reflexivity. }
  assert (Hseq : max_prog year storico + 1 ∈ seq_numbers year storico).
  { unfold seq_numbers. apply list_elem_of_omap. exists code. now split. }
  apply Hlt in Hseq. lia.
Qed.





(** X9. [set_fornitore_ordine] never touches the expected deliveries,
    the drafts or the producer locks, and whatever it answers the ledger
    keeps its events in place with their kind, quantity, order code and
    producer: only the supplier of an event can change, and only on an
    [ordine] event of the given code when the lock went through. The next
    order code is therefore the same before and after. *)
Theorem set_fornitore_ordine_ledger (d : db) (numero fornitore : option string) :
  let r := set_fornitore_ordine d numero fornitore in
  riordini_accettazione r.1 = riordini_accettazione d
  /\ acc_seq r.1 = acc_seq d
  /\ riordini_rdo r.1 = riordini_rdo d
  /\ ordine_produttori r.1 = ordine_produttori d
  /\ length (riordini_effettuati r.1) = length (riordini_effettuati d)
  /\ (forall i ev, riordini_effettuati d !! i = Some ev ->
        exists ev',
          riordini_effettuati r.1 !! i = Some ev'
          /\ st_tipo_evento ev' = st_tipo_evento ev
          /\ st_quantita ev' = st_quantita ev
          /\ st_numero_ordine ev' = st_numero_ordine ev
          /\ st_produttore ev' = st_produttore ev
          /\ st_fornitore ev'
             = match r.2 with
               | LockOk =>
                   if is_order_event (strip (or_empty numero)) ev
                   then Some (strip (or_empty fornitore))
                   else st_fornitore ev
               | LockError _ _ => st_fornitore ev
               end)
  /\ forall year,
       generate_order_code year (riordini_effettuati r.1)
       = generate_order_code year (riordini_effettuati d).
Proof.
  intros r. subst r. unfold set_fornitore_ordine.
  destruct (negb (truthy (strip (or_empty numero)))
            || negb (truthy (strip (or_empty fornitore)))).
  { cbn [fst snd]. split_and!; try reflexivity.
    intros i ev Hev. exists ev. split_and!; auto. }
  destruct (row_locked (ordine_fornitori d !! strip (or_empty numero))).
  { cbn [fst snd]. split_and!; try reflexivity.
    intros i ev Hev. exists ev. split_and!; auto. }
  cbn [fst snd riordini_accettazione acc_seq riordini_rdo ordine_produttori
       riordini_effettuati set_storico set_ordine_fornitori].
  split_and!; try reflexivity.
  - apply length_fmap.
  - intros i ev Hev. rewrite list_lookup_fmap, Hev. cbn [fmap option_fmap option_map].
    eexists. split; [reflexivity|].
    destruct (is_order_event (strip (or_empty numero)) ev); split_and!; reflexivity.
  - intros year. unfold generate_order_code, max_prog.
    rewrite selected_codes_fmap; [reflexivity|].
    intros ev. now destruct (is_order_event (strip (or_empty numero)) ev).
Qed.

(** ** What editing a draft leaves alone *)



(** ** The acceptance block on its own *)

Section AcceptanceBlock.


(** What the block changes outside the expected deliveries: it appends
    at most one event, an [accettazione] event for a positive quantity. *)
Lemma add_acceptance_frame d acc_id new_total q forn prod lettera numero :
  let d' := add_acceptance d acc_id new_total q forn prod lettera numero in
  riordini_rdo d' = riordini_rdo d
  /\ rdo_dates d' = rdo_dates d
  /\ acc_seq d' = acc_seq d
  /\ ordine_fornitori d' = ordine_fornitori d
  /\ ordine_produttori d' = ordine_produttori d
  /\ exists evs,
       riordini_effettuati d' = (riordini_effettuati d ++ evs)%list
       /\ (length evs <= 1)%nat
       /\ Forall (fun ev => st_tipo_evento ev = Some "accettazione"
                            /\ st_quantita ev = q /\ 0 < q) evs.
Proof.
  unfold add_acceptance.
  destruct acc_id as [acc_id|];
    [|cbv zeta; split_and!; try reflexivity;
      exists []; rewrite app_nil_r; split_and!; [reflexivity | simpl; lia | constructor]].
  destruct (riordini_accettazione d !! acc_id) as [row|];
    [|cbv zeta; split_and!; try reflexivity;
      exists []; rewrite app_nil_r; split_and!; [reflexivity | simpl; lia | constructor]].
  cbv zeta.
  destruct (Z.ltb_spec 0 q) as [Hq|Hq];
    destruct new_total as [nt|];
    match goal with
    | |- context [if ?c then _ else _] => destruct c
    end;
    cbn [riordini_rdo rdo_dates acc_seq ordine_fornitori ordine_produttori
         riordini_effettuati set_accettazione set_storico];
    split_and!; try reflexivity;
    first [ exists []; rewrite app_nil_r; split_and!;
            [reflexivity | simpl; lia | constructor]
          | eexists [_]; split_and!;
            [reflexivity | simpl; lia | repeat constructor; assumption] ].
Qed.


Lemma receive_unfold d acc_id quantita dl :
  (exists why, receive d acc_id quantita dl = (d, Refused why))
  \/ (exists q,
        0 < q
        /\ receive d acc_id quantita dl
           = (add_acceptance d (Some acc_id) None q (dl_fornitore dl) (dl_produttore dl)
                             (dl_lettera dl) (dl_numero dl),
              RedirectAdd acc_id q)).
Proof.
  unfold receive.
  destruct (accettazione_update d acc_id (Some quantita) None) as [why|id q] eqn:Hupd.
  - left. eauto.
  - right. apply accettazione_update_redirect in Hupd as (-> & _ & row & _ & Hq).
    exists q. split; [lia | reflexivity].
Qed.

End AcceptanceBlock.





(** X13. Receipts only append to the ledger: after any sequence of
    receipts the former events are still there, in place, followed by at
    most one event per receipt, each an [accettazione] event for a
    positive quantity; drafts, their dates and both lock tables are as
    before, and no identifier of the acceptance table is consumed. *)
Theorem receive_all_ledger (ops : list (Z * string * delivery)) (d : db) :
  let d' := receive_all d ops in
  riordini_rdo d' = riordini_rdo d
  /\ rdo_dates d' = rdo_dates d
  /\ acc_seq d' = acc_seq d
  /\ ordine_fornitori d' = ordine_fornitori d
  /\ ordine_produttori d' = ordine_produttori d
  /\ exists evs,
       riordini_effettuati d' = (riordini_effettuati d ++ evs)%list
       /\ (length evs <= length ops)%nat
       /\ Forall (fun ev => st_tipo_evento ev = Some "accettazione" /\ 0 < st_quantita ev)
                 evs.
Proof.
  revert d. induction ops as [|[[acc_id quantita] dl] rest IH]; intros d.
  - cbn. split_and!; try reflexivity.
    exists []. rewrite app_nil_r. split_and!; [reflexivity | simpl; lia | constructor].
  - cbn [receive_all]. cbv zeta.
    destruct (IH (receive d acc_id quantita dl).1)
      as (H1 & H2 & H3 & H4 & H5 & evs & H6 & Hlen & Hall).
    rewrite H1, H2, H3, H4, H5, H6. clear H1 H2 H3 H4 H5 H6.
    destruct (receive_unfold d acc_id quantita dl) as [[why Hr]|(q & Hq & Hr)];
      rewrite Hr; cbn [fst].
    + split_and!; try reflexivity.
      exists evs. split_and!; [reflexivity | simpl; lia | exact Hall].
    + destruct (add_acceptance_frame d (Some acc_id) None q (dl_fornitore dl)
                  (dl_produttore dl) (dl_lettera dl) (dl_numero dl))
        as (G1 & G2 & G3 & G4 & G5 & evs0 & G6 & Glen & Gall).
      rewrite G1, G2, G3, G4, G5, G6.
      split_and!; try reflexivity.
      exists (evs0 ++ evs)%list. split_and!.
      * now rewrite app_assoc.
      * rewrite length_app. simpl. lia.
      * apply Forall_app. split; [|exact Hall].
        eapply Forall_impl; [exact Gall|]. intros ev (Ht & Hqe & _). split; [exact Ht | lia].
Qed.

(** ** The producer of one delivery *)


(** ** The rule that applies to an article *)

Section RegistryFacts.

Lemma foldl_insert_lookup {V W} (g : V -> W) (l : list (key6 * V)) :
  forall (m0 : gmap key6 W) k,
    NoDup l.*1 ->
    (forall kr, kr ∈ l -> ext_map_key kr.1 = kr.1) ->
    foldl (fun m (kr : key6 * V) => <[ext_map_key kr.1 := g kr.2]> m) m0 l !! k
    = match (list_to_map l : gmap key6 V) !! k with
      | Some v => Some (g v)
      | None => m0 !! k
      end.
Proof.
  induction l as [|kr l IH]; intros m0 k Hnd Hkeys.
  - cbn. now rewrite lookup_empty.
  - rewrite fmap_cons in Hnd. apply NoDup_cons in Hnd as [Hnotin Hnd].
    cbn [foldl]. rewrite IH; [|exact Hnd|intros kr' Hin; apply Hkeys; now right].
    rewrite (Hkeys kr) by now left.
    cbn [list_to_map foldr]. destruct (decide (k = kr.1)) as [->|Hne].
    + rewrite (not_elem_of_list_to_map_1 l kr.1 Hnotin).
      now rewrite !lookup_insert_eq.
    + now rewrite !lookup_insert_ne by congruence.
Qed.

Lemma ext_fold_lookup {W} (g : soglia -> W) t k :
  normalised t ->
  foldl (fun (m : gmap key6 W) (kr : key6 * soglia) => <[ext_map_key kr.1 := g kr.2]> m) ∅
        (map_to_list (riordino_soglie_ext t)) !! k
  = g <$> riordino_soglie_ext t !! k.
Proof.
  intros Hn. rewrite foldl_insert_lookup.
  - rewrite list_to_map_to_list, lookup_empty.
    now destruct (riordino_soglie_ext t !! k).
  - apply NoDup_fst_map_to_list.
  - intros [k' r] Hin. apply elem_of_map_to_list in Hin. exact (Hn k' r Hin).
Qed.

Lemma threshold_map_ext_lookup t k :
  normalised t -> threshold_map_ext t !! k = sg_threshold <$> riordino_soglie_ext t !! k.
Proof. apply ext_fold_lookup. Qed.

Lemma reorder_qty_map_ext_lookup t k :
  normalised t -> reorder_qty_map_ext t !! k = qval_of <$> riordino_soglie_ext t !! k.
Proof. apply ext_fold_lookup. Qed.

Lemma qval_of_positive r q : qval_of r = Some q -> (q <=? 0) = false.
Proof.
  unfold qval_of. destruct (sg_quantita_riordino r) as [q0|]; [|discriminate].
  destruct (Z.leb_spec q0 0); [discriminate|]. intros [= <-].
  destruct (Z.leb_spec q0 0); [lia | reflexivity].
Qed.

Lemma th_val_of_normalised t k :
  normalised t ->
  th_val_of t k
  = match riordino_soglie_ext t !! k with
    | Some r => sg_threshold r
    | None =>
        match riordino_soglie t !! legacy_key k with
        | Some r => sg_threshold r
        | None => DEFAULT_REORDER_THRESHOLD
        end
    end.
Proof.
  intros Hn. unfold th_val_of. rewrite (threshold_map_ext_lookup t k Hn).
  destruct (riordino_soglie_ext t !! k) as [r|]; [reflexivity|].
  unfold threshold_map. rewrite lookup_fmap.
  now destruct (riordino_soglie t !! legacy_key k).
Qed.

Lemma rq_manual_of_normalised t k :
  normalised t ->
  rq_manual_of t k
  = match riordino_soglie_ext t !! k with
    | Some r => qval_of r
    | None =>
        match riordino_soglie t !! legacy_key k with
        | Some r => qval_of r
        | None => None
        end
    end.
Proof.
  intros Hn. unfold rq_manual_of. rewrite (reorder_qty_map_ext_lookup t k Hn).
  unfold reorder_qty_map. rewrite lookup_fmap.
  destruct (riordino_soglie_ext t !! k) as [r|]; cbn.
  - destruct (qval_of r) as [q|] eqn:Hq; [|reflexivity].
    now rewrite (qval_of_positive _ _ Hq).
  - destruct (riordino_soglie t !! legacy_key k) as [r|]; cbn; [|reflexivity].
    destruct (qval_of r) as [q|] eqn:Hq; [|reflexivity].
    now rewrite (qval_of_positive _ _ Hq).
Qed.

Lemma ext_map_key_article a : ext_map_key (article_key a) = article_key a.
Proof.
  unfold article_key, ext_map_key, form_field. now rewrite !strip_idem.
Qed.

Lemma normalised_insert t t' a r :
  riordino_soglie_ext t' = <[article_key a := r]> (riordino_soglie_ext t) ->
  normalised t -> normalised t'.
Proof.
  intros He Hn k r' Hk. rewrite He in Hk.
  apply lookup_insert_Some in Hk as [[<- _]|[_ Hk]].
  - apply ext_map_key_article.
  - exact (Hn k r' Hk).
Qed.

Lemma normalised_update_soglia t a raw : normalised t -> normalised (update_soglia t a raw).
Proof. intros Hn. eapply (normalised_insert t _ a); [reflexivity | exact Hn]. Qed.

Lemma normalised_update_quantita t a q :
  normalised t -> normalised (update_quantita_riordino t a q).
Proof. intros Hn. eapply (normalised_insert t _ a); [reflexivity | exact Hn]. Qed.

Lemma normalised_config_save_row t a th qr :
  normalised t -> normalised (config_save_row t a th qr).
Proof. intros Hn. eapply (normalised_insert t _ a); [reflexivity | exact Hn]. Qed.

Lemma normalised_empty : normalised no_soglie.
Proof. intros k r H. cbn in H. now rewrite lookup_empty in H. Qed.



End RegistryFacts.

(** X15. When the rules of the extended table are filed under trimmed
    keys, the threshold the reorder page applies to an article is the one
    of its extended rule, else the one of the legacy rule of its material,
    type and thickness, else the default 5; the manual reorder quantity is
    looked up in the same order, an extended rule without positive
    quantity hiding the quantity of the legacy rule. *)
Theorem applicable_rule (t : soglie) (k : key6) :
  normalised t ->
  th_val_of t k
  = match riordino_soglie_ext t !! k with
    | Some r => sg_threshold r
    | None =>
        match riordino_soglie t !! legacy_key k with
        | Some r => sg_threshold r
        | None => 5
        end
    end
  /\ rq_manual_of t k
     = match riordino_soglie_ext t !! k with
       | Some r => qval_of r
       | None =>
           match riordino_soglie t !! legacy_key k with
           | Some r => qval_of r
           | None => None
           end
       end.
Proof.
  intros Hn. split.
  - now apply th_val_of_normalised.
  - now apply rq_manual_of_normalised.
Qed.

Lemma applicable_rule_witness :
  normalised saved_soglie
  /\ th_val_of saved_soglie (article_key marble)
     = match riordino_soglie_ext saved_soglie !! article_key marble with
       | Some r => sg_threshold r
       | None =>
           match riordino_soglie saved_soglie !! legacy_key (article_key marble) with
           | Some r => sg_threshold r
           | None => 5
           end
       end.
Proof.
  assert (Hn : normalised saved_soglie)
    by exact (normalised_config_save_row no_soglie marble "3" "" normalised_empty).
  split; [exact Hn|].
  exact (proj1 (applicable_rule saved_soglie (article_key marble) Hn)).
Defined.

(** X16. The three writers of the rules ([update_soglia],
    [update_quantita_riordino] and the bulk save of [config]) file the
    rule under the trimmed key of the article, so that tables written
    through them, starting from empty ones, stay in the form in which the
    reorder page finds every rule again. *)
Theorem writers_keep_normalised (t : soglie) (a : article_form) :
  normalised t ->
  (forall soglia_raw, normalised (update_soglia t a soglia_raw))
  /\ (forall quant_raw, normalised (update_quantita_riordino t a quant_raw))
  /\ (forall th qr, normalised (config_save_row t a th qr))
  /\ ext_map_key (article_key a) = article_key a.
Proof.
  intros Hn. split_and!.
  - intros soglia_raw. now apply normalised_update_soglia.
  - intros quant_raw. now apply normalised_update_quantita.
  - intros th qr. now apply normalised_config_save_row.
  - apply ext_map_key_article.
Qed.

Lemma writers_keep_normalised_witness :
  normalised no_soglie
  /\ normalised (update_soglia no_soglie marble (Some "7")).
Proof.
  split; [exact normalised_empty|].
  exact (proj1 (writers_keep_normalised no_soglie marble normalised_empty) (Some "7")).
Defined.





(** ** The lines of the reorder list *)

Section ReorderList.

Variable sn : snapshot.

Lemma riordini_step_inv done st row :
  loop_inv sn done st ->
  loop_inv sn (done ++ [row])%list (riordini_step sn (active_keys (sn_db sn)) st row).
Proof.
  intros (Hseen & Hrows & Hnd). unfold loop_inv, listed in *. unfold riordini_step.
  assert (Hdone : forall k, k ∈ combo_key <$> (done ++ [row])%list
                            <-> k ∈ combo_key <$> done \/ k = combo_key row).
  { intros k. rewrite fmap_app, elem_of_app. cbn. rewrite list_elem_of_singleton.
    reflexivity. }
  destruct (bool_decide (combo_key row ∈ st.1)) eqn:Hin.
  { apply bool_decide_eq_true in Hin. pose proof (proj1 (Hseen _) Hin) as Hin'.
    split_and!.
    - intros k. rewrite Hdone, Hseen. split; [auto | intros [?| ->]; auto].
    - intros k. rewrite Hdone, Hrows.
      split; [intros [? ?]; auto | intros [[?| ->] ?]; auto].
    - exact Hnd. }
  apply bool_decide_eq_false in Hin.
  assert (Hseen' : forall k, k ∈ {[combo_key row]} ∪ st.1
                             <-> k ∈ combo_key <$> (done ++ [row])%list).
  { intros k. rewrite Hdone, elem_of_union, elem_of_singleton, Hseen. tauto. }
  assert (Hfresh : combo_key row ∉ rr_key <$> st.2).
  { intros Hk. apply Hrows in Hk as [Hk _]. apply Hin. now apply Hseen. }
  assert (Hskip : ~ listed sn (combo_key row) ->
                  loop_inv sn (done ++ [row])%list ({[combo_key row]} ∪ st.1, st.2)).
  { intros Hno. split_and!; [exact Hseen'| |exact Hnd].
    intros k. cbn [snd]. rewrite Hdone, Hrows.
    split; [intros [? ?]; auto | intros [[?| ->] ?]; [auto | contradiction]]. }
  destruct (bool_decide (combo_key row ∈ active_keys (sn_db sn))) eqn:Hact.
  { apply bool_decide_eq_true in Hact. apply Hskip. intros (Hna & _). contradiction. }
  apply bool_decide_eq_false in Hact.
  destruct (Z.eqb_spec (th_val_of (sn_soglie sn) (combo_key row)) 0) as [Hz|Hnz].
  { apply Hskip. intros (_ & Hth & _). contradiction. }
  destruct (Z.leb_spec (total_qty_of (sn_materiali sn) (combo_key row))
                       (th_val_of (sn_soglie sn) (combo_key row))) as [Hle|Hgt].
  2:{ apply Hskip. intros (_ & _ & Hle). lia. }
  split_and!; [exact Hseen'| |].
  - intros k. cbn [snd]. rewrite fmap_app, elem_of_app, Hdone, Hrows. cbn.
    rewrite list_elem_of_singleton.
    split.
    + intros [[? ?]| ->]; [auto|]. split; [now right|]. repeat split; assumption.
    + intros [[?| ->] ?]; auto.
  - cbn [snd]. rewrite fmap_app. apply NoDup_app. split_and!.
    + exact Hnd.
    + intros k Hk Hk'. cbn in Hk'. apply list_elem_of_singleton in Hk' as ->.
      contradiction.
    + cbn. apply NoDup_singleton.
Qed.

Lemma riordini_loop_inv catalog : forall done st,
  loop_inv sn done st ->
  loop_inv sn (done ++ catalog)%list
           (foldl (riordini_step sn (active_keys (sn_db sn))) st catalog).
Proof.
  induction catalog as [|row rest IH]; intros done st Hinv.
  - now rewrite app_nil_r.
  - cbn [foldl]. replace (done ++ row :: rest)%list with ((done ++ [row]) ++ rest)%list
      by now rewrite <- app_assoc.
    apply IH. now apply riordini_step_inv.
Qed.

End ReorderList.

(** X19. The reorder list has one line per article at most, and an
    article is on it exactly when it is in the catalog, has no expected
    delivery or draft in flight, has an applicable threshold other than 0
    and a stock that does not exceed this threshold. *)
Theorem reorder_rows_characterised (sn : snapshot) :
  NoDup (rr_key <$> reorder_rows sn)
  /\ forall k,
       k ∈ rr_key <$> reorder_rows sn
       <-> k ∈ combo_key <$> sn_catalogo sn
           /\ (k ∉ active_keys (sn_db sn))
           /\ th_val_of (sn_soglie sn) k <> 0
           /\ total_qty_of (sn_materiali sn) k <= th_val_of (sn_soglie sn) k.
Proof.
  assert (H0 : loop_inv sn [] (∅, [])).
  { split_and!.
    - intros k. cbn. rewrite elem_of_empty, elem_of_nil. tauto.
    - intros k. cbn. rewrite elem_of_nil. tauto.
    - constructor. }
  destruct (riordini_loop_inv sn (sn_catalogo sn) [] (∅, []) H0) as (_ & Hrows & Hnd).
  split; [exact Hnd | exact Hrows].
Qed.

Section InFlight.




End InFlight.



(** ** Draft requests *)

Section DraftFacts.



Lemma split_on_no_comma s : all_chars not_comma s = true -> split_on "," s = [s].
Proof.
  induction s as [|c s IH]; [reflexivity|].
  cbn [all_chars]. intros [Hc Hs]%andb_true_iff. cbn [split_on].
  unfold not_comma in Hc. apply negb_true_iff in Hc. rewrite Hc, (IH Hs). reflexivity.
Qed.

Lemma split_on_comma_app a b :
  all_chars not_comma a = true ->
  split_on "," (a ++ String "," b) = a :: split_on "," b.
Proof.
  induction a as [|c a IH].
  - intros _. rewrite append_nil. reflexivity.
  - cbn [all_chars]. intros [Hc Ha]%andb_true_iff. rewrite append_cons.
    cbn [split_on]. unfold not_comma in Hc. apply negb_true_iff in Hc.
    rewrite Hc, (IH Ha). reflexivity.
Qed.

Lemma split_on_concat l :
  l <> [] -> Forall (fun s => all_chars not_comma s = true) l ->
  split_on "," (String.concat "," l) = l.
Proof.
  induction l as [|x l IH]; [congruence|]. intros _ Hall.
  apply Forall_cons in Hall as [Hx Hl].
  destruct l as [|y l].
  - cbn. now apply split_on_no_comma.
  - change (String.concat "," (x :: y :: l))
      with (x ++ "," ++ String.concat "," (y :: l)).
    rewrite append_cons, append_nil, split_on_comma_app by exact Hx.
    f_equal. now apply IH.
Qed.

Lemma filter_strip_plain l :
  Forall plain_name l -> filter (fun f => truthy f = true) (strip <$> l) = l.
Proof.
  induction 1 as [|s l (Hc & Hs & Hne) Hl IH]; [reflexivity|].
  rewrite fmap_cons, Hs, filter_cons. rewrite decide_True by now destruct s.
  now rewrite IH.
Qed.




End DraftFacts.


(** X22. The candidate suppliers and producers of a draft are stored
    as one comma-separated text and read back by splitting it: a list of
    names without comma, without white space at either end and not empty
    is read back as it was stored, the empty list included. *)
Theorem comma_round_trip (l : list string) :
  Forall plain_name l -> comma_list (comma_join l) = l.
Proof.
  intros Hall. destruct l as [|x l]; [reflexivity|].
  unfold comma_list, comma_join.
  change (or_empty (Some (String.concat "," (x :: l)))) with (String.concat "," (x :: l)).
  rewrite split_on_concat.
  - now apply filter_strip_plain.
  - discriminate.
  - eapply Forall_impl; [exact Hall|]. now intros s (Hc & _).
Qed.

Lemma comma_round_trip_witness :
  Forall plain_name ["Alfa"; "Beta Marmi"]
  /\ comma_list (comma_join ["Alfa"; "Beta Marmi"]) = ["Alfa"; "Beta Marmi"].
Proof.
  assert (H : Forall plain_name ["Alfa"; "Beta Marmi"]).
  { repeat constructor; try (vm_compute; reflexivity); discriminate. }
  split; [exact H | exact (comma_round_trip _ H)].
Defined.



(** ** The threshold of a material, type and thickness *)


